(** * Shallow embedding of src/script/engine_inference.py (and the
    preprocessing of src/script/onnx_inference.py).

    Numbers: tensor elements are modelled as exact rationals [Q]
    (an idealisation of float32); the element type is recorded as a
    [dtype] tag on every array, as numpy does.

    Memory: the Python/numpy host heap and the pycuda device heap are
    explicit stores.  An ndarray is a (whole-buffer, C-contiguous) view
    onto a host buffer, so two arrays may alias the same storage, as
    [h_output.reshape(...)] aliases [h_output].

    The TensorRT plan, the OpenCV decoder and the PIL resampler are
    external collaborators: they are Section variables (pure functions). *)

From Stdlib Require Import String List ZArith QArith Bool Arith Lia.
Import ListNotations.
Open Scope nat_scope.

(** ** numpy dtypes and the fixed configuration *)

Inductive dtype := float16 | float32 | float64 | uint8 | int64.

Definition dtype_eqb (a b : dtype) : bool :=
  match a, b with
  | float16, float16 | float32, float32 | float64, float64
  | uint8, uint8 | int64, int64 => true
  | _, _ => false
  end.

Fixpoint shape_eqb (a b : list nat) : bool :=
  match a, b with
  | [], [] => true
  | x :: a', y :: b' => Nat.eqb x y && shape_eqb a' b'
  | _, _ => false
  end.

Definition ENGINE_PATH : string := "./model/resnet50_fp16.engine".
Definition INPUT_SHAPE : list nat := [1; 3; 224; 224].
Definition OUTPUT_SHAPE : list nat := [1; 1000].
Definition MEAN : list Q := [485 # 1000; 456 # 1000; 406 # 1000].
Definition STD : list Q := [229 # 1000; 224 # 1000; 225 # 1000].
Definition TEST_IMAGE : string := "./input/dog.jpg".

(** [trt.volume]: product of the dimensions. *)
Definition volume (s : list nat) : nat := fold_right Nat.mul 1 s.
Arguments volume : simpl never.

(** ** Errors raised along the program (Python exception classes). *)
Inductive error :=
  | FileNotFoundError        (* preprocess: cv2.imread returned None *)
  | Cv2Error                 (* cv2.cvtColor called on None *)
  | RuntimeError             (* _load_engine *)
  | HostMemoryError          (* cuda.pagelocked_empty failed *)
  | DeviceMemoryError        (* cuda.mem_alloc failed *)
  | InvalidHandleError       (* DeviceAllocation.free on a freed allocation *)
  | CudaLogicError           (* memcpy on an invalid / too small allocation *)
  | ValueError               (* infer: shape / dtype mismatch *)
  | BroadcastError           (* np.copyto with incompatible sizes *)
  | ReshapeError             (* ndarray.reshape with wrong element count *)
  | AttributeError           (* attribute missing on the executor object *)
  | NoneTypeError.           (* attribute is None where an object is used *)

Inductive result (A : Type) :=
  | Ok (a : A)
  | Err (e : error).
Arguments Ok {A} a.
Arguments Err {A} e.

(** ** Observable actions, in the order the program performs them. *)
Inductive event :=
  | EvCopyHost (dst : nat)             (* np.copyto into host buffer dst *)
  | EvHtoD (d h : nat)                 (* cuda.memcpy_htod *)
  | EvExec (bindings : list nat)       (* context.execute_v2 *)
  | EvDtoH (h d : nat)                 (* cuda.memcpy_dtoh *)
  | EvFree (d : nat)                   (* DeviceAllocation.free *)
  | EvClearEngine                      (* self.engine = None *)
  | EvClearContext                     (* self.context = None *)
  | EvLoadEngine                       (* engine deserialised *)
  | EvPrintInfo                        (* an [INFO] line *)
  | EvPrintResult (label : nat)        (* the result lines *)
  | EvPrintFail (e : error).           (* the failure line *)

(** Python attribute slot of an object: absent, [None], or a value. *)
Inductive attr (A : Type) :=
  | Missing
  | PyNone
  | Val (a : A).
Arguments Missing {A}.
Arguments PyNone {A}.
Arguments Val {A} a.

(** ndarray: a C-contiguous view over a host buffer. *)
Record ndarray := mk_ndarray {
  arr_loc : nat;
  arr_shape : list nat;
  arr_dtype : dtype
}.

(** ** Image preprocessing (engine_inference.py lines 17-34) *)

(** A decoded OpenCV image: height, width and the uint8 value of
    (row, column, channel), channels in the decoder's order. *)
Record image := mk_image {
  ih : nat;
  iw : nat;
  ipx : nat -> nat -> nat -> nat
}.

(** A float CHW tensor as produced by [transforms.ToTensor]. *)
Record chw := mk_chw {
  tc : nat;
  th : nat;
  tw : nat;
  tv : nat -> nat -> nat -> Q
}.

(** A freshly created numpy array, before it is placed in the heap. *)
Record value := mk_value {
  v_shape : list nat;
  v_dtype : dtype;
  v_data : list Q
}.

(** Python [round(x / 2.0)] for a non-negative integer [x]: halves are
    rounded to even. *)
Definition round_half (d : nat) : nat :=
  let q := d / 2 in
  if Nat.even d then q else if Nat.even q then q else S q.

Section Preprocess.

(** [cv2.imread] decoding (IMREAD_COLOR: three channels, BGR order);
    [None] when the bytes are not a decodable image. *)
Variable decode : list Byte.byte -> option image.
(** PIL's bilinear resampler, for a resize that changes the size. *)
Variable resample_bilinear : image -> nat -> nat -> (nat -> nat -> nat -> nat).

Definition imread (fs : string -> option (list Byte.byte)) (path : string) : option image :=
  match fs path with
  | Some bytes => decode bytes
  | None => None
  end.

(** [cv2.cvtColor(img, cv2.COLOR_BGR2RGB)]: channel c of the result is
    channel 2 - c of the source. *)
Definition cvtColor_BGR2RGB (img : image) : image :=
  mk_image (ih img) (iw img) (fun i j c => ipx img i j (2 - c)).

(** [transforms.Resize((h, w))] on a PIL image: an image that already has
    the requested size is returned unchanged; otherwise PIL resamples. *)
Definition resize (img : image) (h w : nat) : image :=
  if Nat.eqb (ih img) h && Nat.eqb (iw img) w then img
  else mk_image h w (resample_bilinear img h w).

(** PIL crop: pixels outside the source are 0. *)
Definition crop (img : image) (top left h w : nat) : image :=
  mk_image h w (fun i j c =>
    if Nat.ltb (top + i) (ih img) && Nat.ltb (left + j) (iw img)
    then ipx img (top + i) (left + j) c else 0).

(** [F.pad(img, [left, top, right, bottom], fill=0)]. *)
Definition pad (img : image) (l t r b : nat) : image :=
  mk_image (t + ih img + b) (l + iw img + r) (fun i j c =>
    if Nat.leb t i && Nat.ltb i (t + ih img) && Nat.leb l j && Nat.ltb j (l + iw img)
    then ipx img (i - t) (j - l) c else 0).

(** [F.center_crop(img, (ch, cw))] of torchvision. *)
Definition center_crop (img : image) (ch cw : nat) : image :=
  let small := Nat.ltb (iw img) cw || Nat.ltb (ih img) ch in
  let img' :=
    if small then
      pad img (if Nat.ltb (iw img) cw then (cw - iw img) / 2 else 0)
              (if Nat.ltb (ih img) ch then (ch - ih img) / 2 else 0)
              (if Nat.ltb (iw img) cw then (cw - iw img + 1) / 2 else 0)
              (if Nat.ltb (ih img) ch then (ch - ih img + 1) / 2 else 0)
    else img in
  if small && Nat.eqb (iw img') cw && Nat.eqb (ih img') ch then img'
  else crop img' (round_half (ih img' - ch)) (round_half (iw img' - cw)) ch cw.

(** [transforms.ToTensor()] on an RGB PIL image: CHW, values / 255. *)
Definition to_tensor (img : image) : chw :=
  mk_chw 3 (ih img) (iw img) (fun c i j => inject_Z (Z.of_nat (ipx img i j c)) / 255)%Q.

(** [transforms.Normalize(mean, std)]. *)
Definition normalize (t : chw) (mean std : list Q) : chw :=
  mk_chw (tc t) (th t) (tw t)
         (fun c i j => (tv t c i j - nth c mean 0) / nth c std 1)%Q.

(** Row-major flattening of a CHW tensor. *)
Definition flatten (t : chw) : list Q :=
  flat_map (fun c =>
    flat_map (fun i => map (fun j => tv t c i j) (seq 0 (tw t))) (seq 0 (th t)))
    (seq 0 (tc t)).

(** [t.numpy()[np.newaxis, ...].astype(np.float32)]. *)
Definition add_batch_axis (t : chw) : value :=
  mk_value [1; tc t; th t; tw t] float32 (flatten t).

(** The transform pipeline applied to an RGB image. *)
Definition transform (img : image) (crop_h crop_w : nat) : chw :=
  normalize (to_tensor (center_crop (resize img 256 256) crop_h crop_w)) MEAN STD.

(** [preprocess(img_path)]. *)
Definition preprocess (fs : string -> option (list Byte.byte)) (img_path : string)
  : result value :=
  match imread fs img_path with
  | None => Err FileNotFoundError
  | Some img =>
      let img := cvtColor_BGR2RGB img in
      Ok (add_batch_axis (transform img 224 224))
  end.

End Preprocess.

(** ** The alternate backend's preprocessing (onnx_inference.py lines 15-35) *)
Module Onnx.

Definition INPUT_SHAPE : list nat := [3; 224; 224].

Section OnnxPreprocess.
Variable decode : list Byte.byte -> option image.
Variable resample_bilinear : image -> nat -> nat -> (nat -> nat -> nat -> nat).

(** [preprocess_image(image_path)]: no check on the result of
    [cv2.imread]; [cv2.cvtColor(None, ...)] raises [cv2.error]. *)
Definition preprocess_image (fs : string -> option (list Byte.byte)) (image_path : string)
  : result value :=
  match imread decode fs image_path with
  | None => Err Cv2Error
  | Some img =>
      let img := cvtColor_BGR2RGB img in
      let img_tensor := transform resample_bilinear img (nth 1 INPUT_SHAPE 0) (nth 2 INPUT_SHAPE 0) in
      Ok (add_batch_axis img_tensor)
  end.

End OnnxPreprocess.
End Onnx.

Section Program.

(** The compiled plan (opaque), its deserialiser and what it computes. *)
Context {Engine : Type}.
Variable deserialize_cuda_engine : list Byte.byte -> option Engine.
Variable plan_forward : Engine -> list Q -> list Q.

(** An execution context remembers the engine it was created from. *)
Record context_t := { ctx_engine : Engine }.

Record executor := mk_executor {
  engine : attr Engine;
  context : attr context_t;
  h_input : attr nat;
  h_output : attr nat;
  d_input : attr nat;
  d_output : attr nat;
  bindings : attr (list nat)
}.

Definition fresh_executor : executor :=
  mk_executor Missing Missing Missing Missing Missing Missing Missing.

(** The whole machine: host heap, device heap (a pycuda allocation is
    valid iff [dmem] maps it), allocation counters and capacities, the
    file system, the executor object and the trace of actions. *)
Record machine := mk_machine {
  hmem : nat -> option (list Q);
  dmem : nat -> option (list Q);
  hnext : nat;
  dnext : nat;
  host_cap : nat;
  dev_cap : nat;
  files : string -> option (list Byte.byte);
  obj : executor;
  trace : list event
}.

Definition upd {A} (f : nat -> option A) (k : nat) (v : option A) : nat -> option A :=
  fun k' => if Nat.eqb k' k then v else f k'.

(** *** A state and exception monad: Python keeps the mutations made
    before an exception is raised, so the state is returned on both
    outcomes. *)
Definition M (A : Type) := machine -> machine * result A.

Definition ret {A} (a : A) : M A := fun m => (m, Ok a).
Definition raise {A} (e : error) : M A := fun m => (m, Err e).
Definition bind {A B} (c : M A) (k : A -> M B) : M B :=
  fun m => match c m with
           | (m', Ok a) => k a m'
           | (m', Err e) => (m', Err e)
           end.
Notation "x <- c1 ;; c2" := (bind c1 (fun x => c2))
  (at level 61, c1 at next level, right associativity).
Notation "c1 ;;; c2" := (bind c1 (fun _ => c2))
  (at level 61, right associativity).

Definition modify (f : machine -> machine) : M unit := fun m => (f m, Ok tt).
Definition gets {A} (f : machine -> A) : M A := fun m => (m, Ok (f m)).

Definition set_hmem (h : nat -> option (list Q)) (m : machine) : machine :=
  mk_machine h (dmem m) (hnext m) (dnext m) (host_cap m) (dev_cap m) (files m) (obj m) (trace m).
Definition set_dmem (d : nat -> option (list Q)) (m : machine) : machine :=
  mk_machine (hmem m) d (hnext m) (dnext m) (host_cap m) (dev_cap m) (files m) (obj m) (trace m).
Definition set_obj (o : executor) (m : machine) : machine :=
  mk_machine (hmem m) (dmem m) (hnext m) (dnext m) (host_cap m) (dev_cap m) (files m) o (trace m).
Definition emit (ev : event) (m : machine) : machine :=
  mk_machine (hmem m) (dmem m) (hnext m) (dnext m) (host_cap m) (dev_cap m) (files m) (obj m) (trace m ++ [ev]).

Definition log (ev : event) : M unit := modify (emit ev).

(** Reading [self.x]: a missing attribute raises AttributeError, a
    [None] used as a buffer or object raises. *)
Definition attr_get {A} (a : attr A) : M A :=
  match a with
  | Missing => raise AttributeError
  | PyNone => raise NoneTypeError
  | Val v => ret v
  end.

Definition hget (l : nat) : M (list Q) :=
  fun m => match hmem m l with
           | Some xs => (m, Ok xs)
           | None => (m, Err AttributeError)
           end.

(** Writing a memory region of fixed size: the region keeps its size. *)
Definition overwrite (old new : list Q) : list Q :=
  firstn (length old) new ++ skipn (length new) old.

(** *** numpy / pycuda primitives *)

(** [cuda.pagelocked_empty(n, np.float32)] (contents unspecified: zeros). *)
Definition pagelocked_empty (n : nat) : M nat :=
  fun m =>
    if Nat.leb n (host_cap m) then
      let l := hnext m in
      (mk_machine (upd (hmem m) l (Some (repeat 0%Q n))) (dmem m) (S l) (dnext m)
                  (host_cap m - n) (dev_cap m) (files m) (obj m) (trace m), Ok l)
    else (m, Err HostMemoryError).

(** [cuda.mem_alloc(h.nbytes)]: a device region of the host buffer's size. *)
Definition mem_alloc (n : nat) : M nat :=
  fun m =>
    if Nat.leb n (dev_cap m) then
      let d := dnext m in
      (mk_machine (hmem m) (upd (dmem m) d (Some (repeat 0%Q n))) (hnext m) (S d)
                  (host_cap m) (dev_cap m - n) (files m) (obj m) (trace m), Ok d)
    else (m, Err DeviceMemoryError).

(** [DeviceAllocation.free()]: pycuda frees a valid allocation and marks it
    invalid; freeing an invalid one raises (CUDA_ERROR_INVALID_HANDLE). *)
Definition dev_free (d : nat) : M unit :=
  fun m =>
    match dmem m d with
    | Some _ => (emit (EvFree d) (set_dmem (upd (dmem m) d None) m), Ok tt)
    | None => (m, Err InvalidHandleError)
    end.

(** [np.copyto(dst, src)] for one-dimensional [dst] and [src]. *)
Definition copyto (dst : nat) (src : list Q) : M unit :=
  fun m =>
    match hmem m dst with
    | Some old =>
        if Nat.eqb (length src) (length old)
        then (emit (EvCopyHost dst) (set_hmem (upd (hmem m) dst (Some src)) m), Ok tt)
        else (m, Err BroadcastError)
    | None => (m, Err AttributeError)
    end.

(** [cuda.memcpy_htod(d, h)]: copies [h.nbytes] into device region [d]. *)
Definition memcpy_htod (d h : nat) : M unit :=
  fun m =>
    match dmem m d, hmem m h with
    | Some dv, Some hv =>
        if Nat.leb (length hv) (length dv)
        then (emit (EvHtoD d h) (set_dmem (upd (dmem m) d (Some (overwrite dv hv))) m), Ok tt)
        else (m, Err CudaLogicError)
    | _, _ => (m, Err CudaLogicError)
    end.

(** [cuda.memcpy_dtoh(h, d)]: fills host buffer [h] from device region [d]. *)
Definition memcpy_dtoh (h d : nat) : M unit :=
  fun m =>
    match hmem m h, dmem m d with
    | Some hv, Some dv =>
        if Nat.leb (length hv) (length dv)
        then (emit (EvDtoH h d) (set_hmem (upd (hmem m) h (Some (firstn (length hv) dv))) m), Ok tt)
        else (m, Err CudaLogicError)
    | _, _ => (m, Err CudaLogicError)
    end.

(** [context.execute_v2(bindings=[din, dout])]: blocking run of the plan;
    it reads binding 0 and writes binding 1.  TensorRT reports a failure
    by returning False, which the code ignores: nothing is raised. *)
Definition execute_v2 (c : context_t) (bs : list nat) : M unit :=
  fun m =>
    match bs with
    | [din; dout] =>
        match dmem m din, dmem m dout with
        | Some x, Some y =>
            (emit (EvExec bs)
                  (set_dmem (upd (dmem m) dout (Some (overwrite y (plan_forward (ctx_engine c) x)))) m),
             Ok tt)
        | _, _ => (emit (EvExec bs) m, Ok tt)
        end
    | _ => (emit (EvExec bs) m, Ok tt)
    end.

(** [a.ravel()]: the flat row-major contents. *)
Definition ravel (a : ndarray) : M (list Q) := hget (arr_loc a).

(** [h.reshape(shape)]: a new view over the same storage. *)
Definition reshape (l : nat) (s : list nat) : M ndarray :=
  xs <- hget l;;
  if Nat.eqb (length xs) (volume s) then ret (mk_ndarray l s float32)
  else raise ReshapeError.

(** ** [SyncTRTInfer.infer] (lines 75-92) *)
Definition infer (input_data : ndarray) : M ndarray :=
  if negb (shape_eqb (arr_shape input_data) INPUT_SHAPE)
     || negb (dtype_eqb (arr_dtype input_data) float32)
  then raise ValueError
  else
    ex <- gets obj;;
    hi <- attr_get (h_input ex);;
    src <- ravel input_data;;
    copyto hi src;;;
    di <- attr_get (d_input ex);;
    hi' <- attr_get (h_input ex);;
    memcpy_htod di hi';;;
    ctx <- attr_get (context ex);;
    bs <- attr_get (bindings ex);;
    execute_v2 ctx bs;;;
    ho <- attr_get (h_output ex);;
    dout <- attr_get (d_output ex);;
    memcpy_dtoh ho dout;;;
    reshape ho OUTPUT_SHAPE.

(** ** Construction: [SyncTRTInfer.__init__] (lines 38-73) *)

Definition set_attr (f : executor -> executor) : M unit :=
  modify (fun m => set_obj (f (obj m)) m).

Definition with_engine (v : attr Engine) (e : executor) : executor :=
  mk_executor v (context e) (h_input e) (h_output e) (d_input e) (d_output e) (bindings e).
Definition with_context (v : attr context_t) (e : executor) : executor :=
  mk_executor (engine e) v (h_input e) (h_output e) (d_input e) (d_output e) (bindings e).
Definition with_h_input (v : attr nat) (e : executor) : executor :=
  mk_executor (engine e) (context e) v (h_output e) (d_input e) (d_output e) (bindings e).
Definition with_h_output (v : attr nat) (e : executor) : executor :=
  mk_executor (engine e) (context e) (h_input e) v (d_input e) (d_output e) (bindings e).
Definition with_d_input (v : attr nat) (e : executor) : executor :=
  mk_executor (engine e) (context e) (h_input e) (h_output e) v (d_output e) (bindings e).
Definition with_d_output (v : attr nat) (e : executor) : executor :=
  mk_executor (engine e) (context e) (h_input e) (h_output e) (d_input e) v (bindings e).
Definition with_bindings (v : attr (list nat)) (e : executor) : executor :=
  mk_executor (engine e) (context e) (h_input e) (h_output e) (d_input e) (d_output e) v.

(** [_load_engine]: read the plan file and deserialise it; every failure
    is re-raised as RuntimeError. *)
Definition load_engine : M Engine :=
  fs <- gets files;;
  match fs ENGINE_PATH with
  | None => raise RuntimeError
  | Some engine_data =>
      match deserialize_cuda_engine engine_data with
      | None => raise RuntimeError
      | Some e => ret e
      end
  end.

(** [_allocate_fixed_memory]: each attribute is assigned only once its
    allocation has returned. *)
Definition allocate_fixed_memory : M unit :=
  hi <- pagelocked_empty (volume INPUT_SHAPE);;
  set_attr (with_h_input (Val hi));;;
  ho <- pagelocked_empty (volume OUTPUT_SHAPE);;
  set_attr (with_h_output (Val ho));;;
  hiv <- hget hi;;
  di <- mem_alloc (length hiv);;
  set_attr (with_d_input (Val di));;;
  hov <- hget ho;;
  dout <- mem_alloc (length hov);;
  set_attr (with_d_output (Val dout)).

(** [SyncTRTInfer()]: a new object, then [__init__]. *)
Definition init : M unit :=
  set_attr (fun _ => fresh_executor);;;
  e <- load_engine;;
  set_attr (with_engine (Val e));;;
  ex <- gets obj;;
  eng <- attr_get (engine ex);;
  set_attr (with_context (Val {| ctx_engine := eng |}));;;
  allocate_fixed_memory;;;
  ex <- gets obj;;
  di <- attr_get (d_input ex);;
  dout <- attr_get (d_output ex);;
  set_attr (with_bindings (Val [di; dout]));;;
  log EvPrintInfo.

(** ** [SyncTRTInfer.release] (lines 94-100) *)
Definition release : M unit :=
  ex <- gets obj;;
  di <- attr_get (d_input ex);;
  dev_free di;;;
  ex <- gets obj;;
  dout <- attr_get (d_output ex);;
  dev_free dout;;;
  set_attr (with_engine PyNone);;;
  log EvClearEngine;;;
  set_attr (with_context PyNone);;;
  log EvClearContext;;;
  log EvPrintInfo.

(** ** The entry point (lines 103-125) *)

Variable decode : list Byte.byte -> option image.
Variable resample_bilinear : image -> nat -> nat -> (nat -> nat -> nat -> nat).

(** A new ndarray in the host heap holding a [value]. *)
Definition new_array (v : value) : M ndarray :=
  fun m =>
    let l := hnext m in
    (mk_machine (upd (hmem m) l (Some (v_data v))) (dmem m) (S l) (dnext m)
                (host_cap m) (dev_cap m) (files m) (obj m) (trace m),
     Ok (mk_ndarray l (v_shape v) (v_dtype v))).

Definition lift {A} (r : result A) : M A :=
  match r with Ok a => ret a | Err e => raise e end.

(** [np.argmax]: index of the first maximum. *)
Fixpoint argmax_from (xs : list Q) (i best : nat) (bv : Q) : nat :=
  match xs with
  | [] => best
  | x :: xs' => if Qlt_le_dec bv x then argmax_from xs' (S i) i x
                else argmax_from xs' (S i) best bv
  end.
Definition argmax (xs : list Q) : nat :=
  match xs with [] => 0 | x :: xs' => argmax_from xs' 1 0 x end.

(** The body of the [try] block after construction. *)
Definition main_body : M unit :=
  fs <- gets files;;
  input_data <- (v <- lift (preprocess decode resample_bilinear fs TEST_IMAGE);; new_array v);;
  log EvPrintInfo;;;
  log EvPrintInfo;;;
  output <- infer input_data;;
  xs <- ravel output;;
  log (EvPrintResult (argmax xs)).

(** [try: trt_infer = SyncTRTInfer(); ... except Exception: print ...
    finally: if 'trt_infer' in locals(): trt_infer.release()].
    When the constructor raises, [trt_infer] is never bound. *)
Definition main : M unit :=
  fun m =>
    match init m with
    | (m1, Err e) => (emit (EvPrintFail e) m1, Ok tt)
    | (m1, Ok _) =>
        let m2 := match main_body m1 with
                  | (m', Ok _) => m'
                  | (m', Err e) => emit (EvPrintFail e) m'
                  end in
        release m2
    end.

(** ** State invariants (decidable) *)

(** A well-formed array: its buffer exists and holds [volume shape] elements. *)
Definition arr_okb (m : machine) (a : ndarray) : bool :=
  match hmem m (arr_loc a) with
  | Some xs => Nat.eqb (length xs) (volume (arr_shape a))
  | None => false
  end.

(** A constructed, not yet released executor, as [__init__] leaves it. *)
Definition liveb (m : machine) : bool :=
  match obj m with
  | mk_executor (Val _) (Val _) (Val hi) (Val ho) (Val di) (Val dout) (Val bs) =>
      shape_eqb bs [di; dout] && negb (Nat.eqb hi ho) && negb (Nat.eqb di dout) &&
      match hmem m hi, hmem m ho, dmem m di, dmem m dout with
      | Some hv, Some hov, Some dv, Some dov =>
          Nat.eqb (length hv) (volume INPUT_SHAPE) &&
          Nat.eqb (length hov) (volume OUTPUT_SHAPE) &&
          Nat.eqb (length dv) (volume INPUT_SHAPE) &&
          Nat.eqb (length dov) (volume OUTPUT_SHAPE)
      | _, _, _, _ => false
      end
  | _ => false
  end.

(** The output host buffer, once allocated, keeps the output volume. *)
Definition hout_okb (m : machine) : bool :=
  match h_output (obj m) with
  | Val ho =>
      match hmem m ho with
      | Some hov => Nat.eqb (length hov) (volume OUTPUT_SHAPE)
      | None => true
      end
  | _ => true
  end.

End Program.

(** Notation for the monad, for statements outside [Program]. *)
Notation "x <- c1 ;; c2" := (bind c1 (fun x => c2))
  (at level 61, c1 at next level, right associativity).
Notation "c1 ;;; c2" := (bind c1 (fun _ => c2))
  (at level 61, right associativity).

(** The machine once [__init__] has loaded the plan and created the
    execution context, before any buffer is allocated. *)
Definition loaded {Engine} (m : @machine Engine) (e : Engine) : @machine Engine :=
  set_obj (with_context (Val {| ctx_engine := e |}) (with_engine (Val e) fresh_executor)) m.

(** ** Computations that never reassign attributes of the executor *)

Definition keeps_obj {Engine A} (c : @M Engine A) : Prop :=
  forall m, obj (fst (c m)) = obj m.

(** ** Observations on preprocessed tensors *)

Definition Qsum (l : list Q) : Q := fold_right Qplus 0%Q l.

(** Mean of channel [c] of an (N,C,H,W) array with N = 1. *)
Definition channel_mean (v : value) (c : nat) : Q :=
  let plane := nth 2 (v_shape v) 0 * nth 3 (v_shape v) 0 in
  (Qsum (firstn plane (skipn (c * plane) (v_data v))) / inject_Z (Z.of_nat plane))%Q.

Definition solid (h w colorValue : nat) : image := mk_image h w (fun _ _ _ => colorValue).

Section Contract.

Variable decode : list Byte.byte -> option image.
Variable resample_bilinear : image -> nat -> nat -> (nat -> nat -> nat -> nat).

Definition CROP_OFFSET : nat := (256 - 224) / 2.

(** The preprocessing contract in the spec's words, written independently
    of [preprocess]: decode, RGB order, resize to 256x256, take the central
    224x224 window (offset (256 - 224) / 2 on each axis), scale to [0,1],
    normalise per channel; result (1,3,224,224), float32, row-major. *)
Definition preprocess_contract (fs : string -> option (list Byte.byte)) (path : string)
  : result value :=
  match imread decode fs path with
  | None => Err FileNotFoundError
  | Some img =>
      let r := resize resample_bilinear (cvtColor_BGR2RGB img) 256 256 in
      Ok (mk_value [1; 3; 224; 224] float32
            (flat_map (fun c =>
               flat_map (fun i =>
                 map (fun j =>
                   ((inject_Z (Z.of_nat (ipx r (CROP_OFFSET + i) (CROP_OFFSET + j) c)) / 255
                     - nth c MEAN 0) / nth c STD 1)%Q)
                   (seq 0 224))
                 (seq 0 224))
               (seq 0 3)))
  end.

End Contract.

(** * A concrete installation, for witnesses and counterexamples *)

Module Demo.

(** A plan file at [ENGINE_PATH] whose engine maps the input to its
    first 1000 values; nothing else on disk unless added. *)
Definition engine_bytes : list Byte.byte := [Byte.x54; Byte.x52; Byte.x54].
Definition fs (p : string) : option (list Byte.byte) :=
  if String.eqb p ENGINE_PATH then Some engine_bytes else None.
Definition deserialize (b : list Byte.byte) : option unit :=
  match b with [] => None | _ => Some tt end.
Definition forward (e : unit) (x : list Q) : list Q := firstn 1000 x.

Definition boot (hcap dcap : nat) : @machine unit :=
  mk_machine (fun _ => None) (fun _ => None) 0 0 hcap dcap fs fresh_executor [].

(** Enough pinned and device memory for both buffers. *)
Definition constructed : @machine unit :=
  fst (init deserialize (boot (volume INPUT_SHAPE + volume OUTPUT_SHAPE)
                              (volume INPUT_SHAPE + volume OUTPUT_SHAPE))).

(** The caller's input array, a fresh (1,3,224,224) float32 array. *)
Definition with_input : @machine unit * ndarray :=
  match new_array (mk_value INPUT_SHAPE float32 (repeat (1 # 2)%Q (volume INPUT_SHAPE))) constructed with
  | (m, Ok a) => (m, a)
  | (m, Err _) => (m, mk_ndarray 0 INPUT_SHAPE float32)
  end.

(** No pinned memory at all: the plan loads, allocation then fails. *)
Definition failed_alloc : @machine unit := boot 0 0.

(** A decoder that reads every file as a solid grey 256x256 picture,
    a resampler that is never consulted on such pictures, and a disk
    holding one image at [TEST_IMAGE]. *)
Definition grey : nat := 128.
Definition decode_solid (b : list Byte.byte) : option image :=
  match b with [] => None | _ => Some (solid 256 256 grey) end.
Definition resample_zero (img : image) (h w : nat) : nat -> nat -> nat -> nat :=
  fun _ _ _ => 0.
Definition image_bytes : list Byte.byte := [Byte.xff; Byte.xd8; Byte.xff].
Definition fs_img (p : string) : option (list Byte.byte) :=
  if String.eqb p TEST_IMAGE then Some image_bytes else fs p.
Definition decode_none (b : list Byte.byte) : option image := None.

(** A second disk holding the same bytes under another name. *)
Definition COPY_IMAGE : string := "./input/dog_copy.jpg".
Definition fs_copy (p : string) : option (list Byte.byte) :=
  if String.eqb p COPY_IMAGE then Some image_bytes else None.

(** The machine [constructed] is built from. *)
Definition constructed_from : @machine unit :=
  boot (volume INPUT_SHAPE + volume OUTPUT_SHAPE) (volume INPUT_SHAPE + volume OUTPUT_SHAPE).

(** An empty disk: no plan file. *)
Definition empty_disk : @machine unit :=
  mk_machine (fun _ => None) (fun _ => None) 0 0 0 0 (fun _ => None) fresh_executor [].


(** The plan and the test image on disk, and enough memory everywhere. *)
Definition ready : @machine unit :=
  mk_machine (fun _ => None) (fun _ => None) 0 0
             (volume INPUT_SHAPE + volume OUTPUT_SHAPE) (volume INPUT_SHAPE + volume OUTPUT_SHAPE)
             fs_img fresh_executor [].

End Demo.

(** * Lemmas about the model *)

Lemma Ok_inj {A} (x y : A) : Ok x = Ok y -> x = y.
Proof. intro H. injection H. exact (fun E => E). Qed.

Lemma shape_eqb_eq (a b : list nat) : shape_eqb a b = true <-> a = b.
Proof.
  revert b; induction a as [|x a IH]; intros [|y b]; simpl; split; intro H;
    try discriminate; try reflexivity.
  - apply andb_true_iff in H as [H1 H2]. apply Nat.eqb_eq in H1.
    apply IH in H2. now subst.
  - injection H as -> ->. apply andb_true_iff. split.
    + apply Nat.eqb_refl.
    + now apply IH.
Qed.

Lemma dtype_eqb_eq (a b : dtype) : dtype_eqb a b = true <-> a = b.
Proof. destruct a, b; simpl; split; intro H; congruence. Qed.

Lemma upd_same {A} (f : nat -> option A) k v : upd f k v k = v.
Proof. unfold upd. now rewrite Nat.eqb_refl. Qed.

Lemma upd_other {A} (f : nat -> option A) k k' v : k' <> k -> upd f k v k' = f k'.
Proof. intro H. unfold upd. apply Nat.eqb_neq in H. now rewrite H. Qed.

Lemma overwrite_length (old new : list Q) : length (overwrite old new) = length old.
Proof.
  unfold overwrite. rewrite length_app, length_firstn, length_skipn. lia.
Qed.

Lemma overwrite_full (old new : list Q) :
  length new = length old -> overwrite old new = new.
Proof.
  intro H. unfold overwrite. rewrite <- H, firstn_all, H, skipn_all2 by lia.
  apply app_nil_r.
Qed.

Lemma volume_in_out : volume INPUT_SHAPE <> volume OUTPUT_SHAPE.
Proof.
  intro H. assert (E : Nat.eqb (volume INPUT_SHAPE) (volume OUTPUT_SHAPE) = false)
    by (vm_compute; reflexivity).
  apply Nat.eqb_neq in E. contradiction.
Qed.

(** ** Running the monad *)

Lemma bind_step {Engine A B} (c : @M Engine A) (k : A -> @M Engine B) m m' a :
  c m = (m', Ok a) -> bind c k m = k a m'.
Proof. intro H. unfold bind. now rewrite H. Qed.

Lemma bind_stop {Engine A B} (c : @M Engine A) (k : A -> @M Engine B) m m' e :
  c m = (m', Err e) -> bind c k m = (m', Err e).
Proof. intro H. unfold bind. now rewrite H. Qed.

Lemma copyto_ok {Engine} (m : @machine Engine) dst src old :
  hmem m dst = Some old -> length src = length old ->
  copyto dst src m = (emit (EvCopyHost dst) (set_hmem (upd (hmem m) dst (Some src)) m), Ok tt).
Proof. intros H L. unfold copyto. rewrite H, L, Nat.eqb_refl. reflexivity. Qed.

Lemma memcpy_htod_ok {Engine} (m : @machine Engine) d h dv hv :
  dmem m d = Some dv -> hmem m h = Some hv -> length hv <= length dv ->
  memcpy_htod d h m =
    (emit (EvHtoD d h) (set_dmem (upd (dmem m) d (Some (overwrite dv hv))) m), Ok tt).
Proof.
  intros H1 H2 L. unfold memcpy_htod. rewrite H1, H2.
  apply Nat.leb_le in L. now rewrite L.
Qed.

Lemma execute_v2_ok {Engine} pf (m : @machine Engine) c din dout x y :
  dmem m din = Some x -> dmem m dout = Some y ->
  execute_v2 pf c [din; dout] m =
    (emit (EvExec [din; dout])
          (set_dmem (upd (dmem m) dout (Some (overwrite y (pf (ctx_engine c) x)))) m), Ok tt).
Proof. intros H1 H2. unfold execute_v2. now rewrite H1, H2. Qed.

Lemma memcpy_dtoh_ok {Engine} (m : @machine Engine) h d hv dv :
  hmem m h = Some hv -> dmem m d = Some dv -> length hv <= length dv ->
  memcpy_dtoh h d m =
    (emit (EvDtoH h d) (set_hmem (upd (hmem m) h (Some (firstn (length hv) dv))) m), Ok tt).
Proof.
  intros H1 H2 L. unfold memcpy_dtoh. rewrite H1, H2.
  apply Nat.leb_le in L. now rewrite L.
Qed.

Lemma dev_free_ok {Engine} (m : @machine Engine) d dv :
  dmem m d = Some dv ->
  dev_free d m = (emit (EvFree d) (set_dmem (upd (dmem m) d None) m), Ok tt).
Proof. intro H. unfold dev_free. now rewrite H. Qed.

Lemma dev_free_invalid {Engine} (m : @machine Engine) d :
  dmem m d = None -> dev_free d m = (m, Err InvalidHandleError).
Proof. intro H. unfold dev_free. now rewrite H. Qed.

(** Destruct the next [match] of the goal, remembering the equation. *)
Ltac case_match_goal :=
  match goal with
  | |- context [match ?x with _ => _ end] => destruct x eqn:?
  end.

(** Case split on the next test of a computation in the state monad:
    first on variables, then on heap lookups and boolean tests. *)
Ltac split_step :=
  match goal with
  | |- context [match ?x with _ => _ end] => is_var x; destruct x
  | |- context [match hmem ?m ?l with _ => _ end] => destruct (hmem m l) eqn:?
  | |- context [match dmem ?m ?l with _ => _ end] => destruct (dmem m l) eqn:?
  | |- context [if ?b then _ else _] => destruct b eqn:?
  end.

Section InferProofs.

Context {Engine : Type}.
Variable plan_forward : Engine -> list Q -> list Q.

Lemma liveb_inv (m : @machine Engine) e c hi ho di dout bs :
  liveb m = true ->
  obj m = mk_executor (Val e) (Val c) (Val hi) (Val ho) (Val di) (Val dout) (Val bs) ->
  bs = [di; dout] /\ hi <> ho /\ di <> dout /\
  exists hv hov dv dov,
    hmem m hi = Some hv /\ hmem m ho = Some hov /\ dmem m di = Some dv /\ dmem m dout = Some dov /\
    length hv = volume INPUT_SHAPE /\ length hov = volume OUTPUT_SHAPE /\
    length dv = volume INPUT_SHAPE /\ length dov = volume OUTPUT_SHAPE.
Proof.
  unfold liveb. intros H Ho. rewrite Ho in H.
  destruct (hmem m hi) as [hv|], (hmem m ho) as [hov|], (dmem m di) as [dv|],
    (dmem m dout) as [dov|]; rewrite ?andb_false_r in H; try discriminate.
  repeat rewrite andb_true_iff in H.
  destruct H as [[[H1 H2] H3] [[[H4 H5] H6] H7]].
  apply shape_eqb_eq in H1. apply negb_true_iff, Nat.eqb_neq in H2, H3.
  apply Nat.eqb_eq in H4, H5, H6, H7.
  repeat split; auto. exists hv, hov, dv, dov. repeat split; auto.
Qed.

(** Claim C4. For every input whose shape is not (1,3,224,224) or whose
    dtype is not float32, [infer] raises the shape-mismatch ValueError and
    returns the machine exactly as it was: no host or device buffer is
    written and no copy appears in the trace. *)
Theorem infer_mismatch_no_copy (m : @machine Engine) (a : ndarray) :
  arr_shape a <> INPUT_SHAPE \/ arr_dtype a <> float32 ->
  infer plan_forward a m = (m, Err ValueError).
Proof.
  intro H. unfold infer.
  assert (E : negb (shape_eqb (arr_shape a) INPUT_SHAPE)
              || negb (dtype_eqb (arr_dtype a) float32) = true).
  { apply orb_true_iff. destruct H as [H|H]; [left|right]; apply negb_true_iff;
      apply not_true_iff_false; intro E; apply H.
    - now apply shape_eqb_eq.
    - now apply dtype_eqb_eq. }
  rewrite E. reflexivity.
Qed.

(** Claim C1. On a live executor, for every well-formed input of shape
    (1,3,224,224) and dtype float32, [infer] succeeds and returns the
    (1,1000) float32 view of the output host buffer; the actions are
    exactly, in order: copy of the flat input into the input host buffer,
    host-to-device copy, one blocking execution on the binding pair
    [d_input; d_output], device-to-host copy into the output host buffer.
    The output buffer then holds the plan's result on the input, and the
    executor is still live. *)
Theorem infer_valid_sequence (m : @machine Engine) (a : ndarray) e c hi ho di dout bs x :
  liveb m = true ->
  obj m = mk_executor (Val e) (Val c) (Val hi) (Val ho) (Val di) (Val dout) (Val bs) ->
  hmem m (arr_loc a) = Some x -> length x = volume (arr_shape a) ->
  arr_shape a = INPUT_SHAPE -> arr_dtype a = float32 ->
  exists m' y,
    infer plan_forward a m = (m', Ok (mk_ndarray ho OUTPUT_SHAPE float32)) /\
    bs = [di; dout] /\
    trace m' = trace m ++ [EvCopyHost hi; EvHtoD di hi; EvExec [di; dout]; EvDtoH ho dout] /\
    hmem m' hi = Some x /\ dmem m' di = Some x /\ dmem m dout = Some y /\
    hmem m' ho = Some (overwrite y (plan_forward (ctx_engine c) x)) /\
    liveb m' = true.
Proof.
  intros Hl Ho Hx Hlen Hs Hd.
  destruct (liveb_inv m e c hi ho di dout bs Hl Ho)
    as (-> & Hhio & Hdio & hv & hov & dv & dov & Hhv & Hhov & Hdv & Hdov & L1 & L2 & L3 & L4).
  rewrite Hs in Hlen.
  eexists _, dov. split.
  { unfold infer. rewrite Hs, Hd. cbn [shape_eqb INPUT_SHAPE Nat.eqb dtype_eqb negb orb andb].
    erewrite bind_step by reflexivity. cbv beta. rewrite Ho. cbn [h_input d_input context bindings h_output d_output].
    erewrite bind_step by reflexivity. cbv beta.
    erewrite bind_step by (unfold ravel, hget; rewrite Hx; reflexivity). cbv beta.
    erewrite bind_step by (apply copyto_ok with (old := hv); [exact Hhv | lia]). cbv beta.
    erewrite bind_step by reflexivity. cbv beta.
    erewrite bind_step by reflexivity. cbv beta.
    erewrite bind_step by (apply memcpy_htod_ok with (dv := dv) (hv := x);
      [exact Hdv | cbn; apply upd_same | lia]). cbv beta.
    erewrite bind_step by reflexivity. cbv beta.
    erewrite bind_step by reflexivity. cbv beta.
    erewrite bind_step by (apply execute_v2_ok with (x := overwrite dv x) (y := dov);
      [cbn; apply upd_same | cbn; rewrite upd_other by congruence; exact Hdov]). cbv beta.
    erewrite bind_step by reflexivity. cbv beta.
    erewrite bind_step by reflexivity. cbv beta.
    erewrite bind_step by (apply memcpy_dtoh_ok with (hv := hov) (dv := overwrite dov (plan_forward (ctx_engine c) (overwrite dv x)));
      [cbn; rewrite !upd_other by congruence; exact Hhov | cbn; apply upd_same | rewrite overwrite_length; lia]). cbv beta.
    unfold reshape. erewrite bind_step by (unfold hget; cbn; rewrite upd_same; reflexivity).
    rewrite length_firstn, overwrite_length, L2, L4, Nat.min_id, Nat.eqb_refl.
    reflexivity. }
  assert (Ex : overwrite dv x = x) by (apply overwrite_full; lia).
  rewrite Ex, firstn_all2 by (rewrite overwrite_length; lia).
  cbn [trace hmem dmem emit set_hmem set_dmem obj].
  split; [reflexivity|].
  split; [rewrite <- !app_assoc; reflexivity|].
  split; [rewrite upd_other, upd_same by congruence; reflexivity|].
  split; [rewrite upd_other, upd_same by congruence; reflexivity|].
  split; [exact Hdov|].
  split; [rewrite upd_same; reflexivity|].
  unfold liveb. cbn [obj hmem dmem emit set_hmem set_dmem]. rewrite Ho.
  rewrite (upd_other _ ho hi), upd_same, upd_same by congruence.
  rewrite (upd_other _ dout di), upd_same, upd_same by congruence.
  rewrite overwrite_length, Hlen, L4, !Nat.eqb_refl.
  apply Nat.eqb_neq in Hhio, Hdio. rewrite Hhio, Hdio.
  cbn [shape_eqb negb andb]. now rewrite !Nat.eqb_refl.
Qed.

Lemma infer_check_passes (a : ndarray) :
  negb (shape_eqb (arr_shape a) INPUT_SHAPE) || negb (dtype_eqb (arr_dtype a) float32) = false ->
  arr_shape a = INPUT_SHAPE /\ arr_dtype a = float32.
Proof.
  intro H. apply orb_false_iff in H as [H1 H2].
  apply negb_false_iff in H1, H2. split.
  - now apply shape_eqb_eq.
  - now apply dtype_eqb_eq.
Qed.

(** Claim C10. [infer] never writes into the storage of its argument,
    whether it succeeds or raises, even when the argument is a view over
    one of the executor's own host buffers: for a well-formed argument (its
    buffer holds as many elements as its shape says) and an output host
    buffer of 1000 elements (or none yet), the argument's buffer holds the
    same contents afterwards.  (Its shape and dtype are fields of the
    array value, which [infer] does not rebind.) *)
Theorem infer_input_unchanged (m : @machine Engine) (a : ndarray) :
  hout_okb m = true -> arr_okb m a = true ->
  hmem (fst (infer plan_forward a m)) (arr_loc a) = hmem m (arr_loc a).
Proof.
  intros Hout Ha. unfold infer.
  destruct (negb (shape_eqb (arr_shape a) INPUT_SHAPE) || negb (dtype_eqb (arr_dtype a) float32))
    eqn:Echeck; [reflexivity|].
  apply infer_check_passes in Echeck as [Hs _].
  destruct a as [l sh dt]. unfold arr_okb in Ha. cbn [arr_loc arr_shape arr_dtype] in *. rewrite Hs in Ha.
  destruct (hmem m l) as [x|] eqn:Hx; [|discriminate].
  apply Nat.eqb_eq in Ha.
  unfold hout_okb in Hout.
  pose proof volume_in_out as Hvol.
  unfold reshape, bind, gets, attr_get, ravel, hget, ret, raise, copyto, memcpy_htod, execute_v2,
    memcpy_dtoh.
  destruct (obj m) as [en ct hiA hoA diA doA bsA]; cbn [h_input h_output d_input d_output context bindings] in *.
  unfold upd.
  repeat (split_step; cbn [fst snd hmem dmem obj emit set_hmem set_dmem] in *);
    try reflexivity; try congruence.
  all: cbn [arr_loc arr_shape arr_dtype] in *.
  all: repeat match goal with
         | H : (_ =? _) = true |- _ => apply Nat.eqb_eq in H
         | H : (_ =? _) = false |- _ => apply Nat.eqb_neq in H
         end.
  all: try (subst; congruence).
  all: exfalso; subst;
    try match goal with Hout : context [match hmem ?mm ?ho with _ => _ end] |- _ =>
      destruct (hmem mm ho) as [hov|] eqn:Ho3; [apply Nat.eqb_eq in Hout|] end;
    repeat match goal with
           | H1 : hmem ?mm ?k = Some ?u, H2 : hmem ?mm ?k = Some ?v |- _ =>
               rewrite H1 in H2; injection H2 as H2; subst
           end;
    try congruence; try lia.
Qed.

Lemma release_live (m : @machine Engine) e c hi ho di dout bs :
  liveb m = true ->
  obj m = mk_executor (Val e) (Val c) (Val hi) (Val ho) (Val di) (Val dout) (Val bs) ->
  exists m1,
    release m = (m1, Ok tt) /\
    trace m1 = trace m ++ [EvFree di; EvFree dout; EvClearEngine; EvClearContext; EvPrintInfo] /\
    dmem m1 di = None /\ dmem m1 dout = None /\
    (forall k, k <> di -> k <> dout -> dmem m1 k = dmem m k) /\
    hmem m1 = hmem m /\
    obj m1 = mk_executor PyNone PyNone (Val hi) (Val ho) (Val di) (Val dout) (Val bs).
Proof.
  intros Hl Ho.
  destruct (liveb_inv m e c hi ho di dout bs Hl Ho)
    as (-> & Hhio & Hdio & hv & hov & dv & dov & Hhv & Hhov & Hdv & Hdov & L1 & L2 & L3 & L4).
  eexists. split.
  { unfold release.
    erewrite bind_step by reflexivity. cbv beta. rewrite Ho. cbn [d_input d_output].
    erewrite bind_step by reflexivity. cbv beta.
    erewrite bind_step by (apply dev_free_ok with (dv := dv); exact Hdv). cbv beta.
    erewrite bind_step by reflexivity. cbv beta. cbn [obj emit set_dmem]. rewrite Ho.
    cbn [d_output].
    erewrite bind_step by reflexivity. cbv beta.
    erewrite bind_step by (apply dev_free_ok with (dv := dov); cbn;
      rewrite upd_other by congruence; exact Hdov). cbv beta.
    reflexivity. }
  cbn. rewrite Ho. cbn. rewrite <- !app_assoc. cbn.
  split; [reflexivity|].
  split; [unfold upd; rewrite Nat.eqb_refl; apply Nat.eqb_neq in Hdio; now rewrite Hdio|].
  split; [now rewrite upd_same|].
  split; [intros k Hk1 Hk2; now rewrite !upd_other|].
  split; reflexivity.
Qed.

(** Claim C2 (as corrected). On a live executor a first [release()]
    succeeds; a second, consecutive [release()] raises pycuda's
    invalid-handle error at [self.d_input.free()] and changes nothing:
    no device buffer is freed a second time, but the call fails. *)
Theorem release_twice_second_raises (m : @machine Engine) e c hi ho di dout bs :
  liveb m = true ->
  obj m = mk_executor (Val e) (Val c) (Val hi) (Val ho) (Val di) (Val dout) (Val bs) ->
  exists m1,
    release m = (m1, Ok tt) /\
    trace m1 = trace m ++ [EvFree di; EvFree dout; EvClearEngine; EvClearContext; EvPrintInfo] /\
    release m1 = (m1, Err InvalidHandleError).
Proof.
  intros Hl Ho.
  destruct (release_live m e c hi ho di dout bs Hl Ho)
    as (m1 & Hr & Ht & Hdi & Hdo & _ & _ & Ho1).
  exists m1. split; [exact Hr|]. split; [exact Ht|].
  unfold release.
  erewrite bind_step by reflexivity. cbv beta. rewrite Ho1. cbn [d_input].
  erewrite bind_step by reflexivity. cbv beta.
  apply bind_stop. now apply dev_free_invalid.
Qed.

(** Claim C5 (as corrected). A [release()] on a live executor frees the
    input device buffer, then the output device buffer, then sets the plan
    reference [self.engine] to None, then the handle reference
    [self.context] to None: the plan is invalidated before the handle. *)
Theorem release_order (m : @machine Engine) e c hi ho di dout bs :
  liveb m = true ->
  obj m = mk_executor (Val e) (Val c) (Val hi) (Val ho) (Val di) (Val dout) (Val bs) ->
  exists m1,
    release m = (m1, Ok tt) /\
    trace m1 = trace m ++ [EvFree di; EvFree dout; EvClearEngine; EvClearContext; EvPrintInfo] /\
    dmem m1 di = None /\ dmem m1 dout = None /\
    engine (obj m1) = PyNone /\ context (obj m1) = PyNone.
Proof.
  intros Hl Ho.
  destruct (release_live m e c hi ho di dout bs Hl Ho)
    as (m1 & Hr & Ht & Hdi & Hdo & _ & _ & Ho1).
  exists m1. rewrite Ho1. repeat split; assumption.
Qed.

End InferProofs.


Create HintDb keeps.

Lemma keeps_bind {Engine A B} (c : @M Engine A) (k : A -> @M Engine B) :
  keeps_obj c -> (forall a, keeps_obj (k a)) -> keeps_obj (bind c k).
Proof.
  intros Hc Hk m. unfold bind. specialize (Hc m).
  destruct (c m) as [m' [a|e]]; cbn in *; [rewrite Hk|]; exact Hc.
Qed.

Lemma keeps_ret {Engine A} (a : A) : keeps_obj (@ret Engine A a).
Proof. intro m. reflexivity. Qed.

Lemma keeps_raise {Engine A} e : keeps_obj (@raise Engine A e).
Proof. intro m. reflexivity. Qed.

Lemma keeps_gets {Engine A} (f : @machine Engine -> A) : keeps_obj (gets f).
Proof. intro m. reflexivity. Qed.

Lemma keeps_log {Engine} ev : keeps_obj (@log Engine ev).
Proof. intro m. reflexivity. Qed.

Lemma keeps_attr_get {Engine A} (x : attr A) : keeps_obj (@attr_get Engine A x).
Proof. intro m. destruct x; reflexivity. Qed.

Lemma keeps_hget {Engine} l : keeps_obj (@hget Engine l).
Proof. intro m. unfold hget. destruct (hmem m l); reflexivity. Qed.

Lemma keeps_copyto {Engine} dst src : keeps_obj (@copyto Engine dst src).
Proof.
  intro m. unfold copyto. destruct (hmem m dst); [destruct (_ =? _)|]; reflexivity.
Qed.

Lemma keeps_memcpy_htod {Engine} d h : keeps_obj (@memcpy_htod Engine d h).
Proof.
  intro m. unfold memcpy_htod.
  destruct (dmem m d), (hmem m h); try destruct (_ <=? _); reflexivity.
Qed.

Lemma keeps_memcpy_dtoh {Engine} h d : keeps_obj (@memcpy_dtoh Engine h d).
Proof.
  intro m. unfold memcpy_dtoh.
  destruct (hmem m h), (dmem m d); try destruct (_ <=? _); reflexivity.
Qed.

Lemma keeps_execute_v2 {Engine} pf c bs : keeps_obj (@execute_v2 Engine pf c bs).
Proof.
  intro m. unfold execute_v2.
  destruct bs as [|x [|y [|z bs]]]; try reflexivity.
  destruct (dmem m x), (dmem m y); reflexivity.
Qed.

Lemma keeps_new_array {Engine} v : keeps_obj (@new_array Engine v).
Proof. intro m. reflexivity. Qed.

Lemma keeps_lift {Engine A} (r : result A) : keeps_obj (@lift Engine A r).
Proof. intro m. destruct r; reflexivity. Qed.

Lemma keeps_ravel {Engine} a : keeps_obj (@ravel Engine a).
Proof. apply keeps_hget. Qed.

Lemma keeps_reshape {Engine} l s : keeps_obj (@reshape Engine l s).
Proof.
  apply keeps_bind; [apply keeps_hget|]. intro xs.
  destruct (_ =? _); [apply keeps_ret | apply keeps_raise].
Qed.

#[export] Hint Resolve keeps_ret keeps_raise keeps_gets keeps_log keeps_attr_get keeps_hget
  keeps_copyto keeps_memcpy_htod keeps_memcpy_dtoh keeps_execute_v2 keeps_new_array
  keeps_lift keeps_ravel keeps_reshape : keeps.

Ltac keeps_auto :=
  repeat first
    [ apply keeps_bind; [auto with keeps|intro]
    | match goal with |- keeps_obj (if ?b then _ else _) => destruct b end ];
  auto with keeps.

Lemma keeps_infer {Engine} pf a : keeps_obj (@infer Engine pf a).
Proof.
  unfold infer. destruct (_ || _); [apply keeps_raise|]. keeps_auto.
Qed.

Lemma keeps_main_body {Engine} pf dec rs : keeps_obj (@main_body Engine pf dec rs).
Proof.
  unfold main_body. keeps_auto. apply keeps_infer.
Qed.

Section MainProofs.

Context {Engine : Type}.
Variable deserialize_cuda_engine : list Byte.byte -> option Engine.
Variable plan_forward : Engine -> list Q -> list Q.
Variable decode : list Byte.byte -> option image.
Variable resample_bilinear : image -> nat -> nat -> (nat -> nat -> nat -> nat).

(** Claim C3 (as corrected). The entry point calls [release()] exactly
    when construction succeeded: if [SyncTRTInfer()] raises, [trt_infer]
    is never bound and the program only prints the failure, releasing
    nothing; once construction succeeded, every path (success, failed
    preprocessing, failed inference) ends in [release()] on the executor
    as constructed.  [release()] itself does not tolerate a partially
    built executor: without a [d_input] attribute (buffers never
    allocated) it raises AttributeError. *)
Theorem main_release_paths (m : @machine Engine) :
  (forall m1 e, init deserialize_cuda_engine m = (m1, Err e) ->
     main deserialize_cuda_engine plan_forward decode resample_bilinear m
       = (emit (EvPrintFail e) m1, Ok tt)) /\
  (forall m1, init deserialize_cuda_engine m = (m1, Ok tt) ->
     exists m2, main deserialize_cuda_engine plan_forward decode resample_bilinear m
                  = release m2 /\ obj m2 = obj m1) /\
  (d_input (obj m) = Missing -> release m = (m, Err AttributeError)).
Proof.
  split; [|split].
  - intros m1 e H. unfold main. now rewrite H.
  - intros m1 H. unfold main. rewrite H.
    eexists. split; [reflexivity|].
    pose proof (keeps_main_body plan_forward decode resample_bilinear m1) as K.
    destruct (main_body plan_forward decode resample_bilinear m1) as [m' [u|e]];
      exact K.
  - intro H. unfold release.
    erewrite bind_step by reflexivity. cbv beta. rewrite H. reflexivity.
Qed.

End MainProofs.

Section PreprocessProofs.

Variable decode : list Byte.byte -> option image.
Variable resample_bilinear : image -> nat -> nat -> (nat -> nat -> nat -> nat).

Lemma firstn_skipn_block {B} (f : nat -> list B) k n s i :
  (forall x, length (f x) = k) -> i < n ->
  firstn k (skipn (i * k) (flat_map f (seq s n))) = f (s + i).
Proof.
  intro Hk. revert s i. induction n as [|n IH]; intros s i Hi; [lia|].
  cbn [seq flat_map]. destruct i as [|i].
  - cbn [Nat.mul skipn]. rewrite firstn_app, <- (Hk s), firstn_all, Nat.sub_diag.
    rewrite Nat.add_0_r. cbn [firstn]. apply app_nil_r.
  - rewrite Nat.mul_succ_l, Nat.add_comm, skipn_app, (Hk s).
    rewrite skipn_all2 by (rewrite (Hk s); lia). cbn [app].
    replace (k + i * k - k) with (i * k) by lia.
    rewrite IH by lia. f_equal. lia.
Qed.

Lemma Qsum_const (l : list Q) (x : Q) :
  (forall y, In y l -> y = x) -> (Qsum l == inject_Z (Z.of_nat (length l)) * x)%Q.
Proof.
  induction l as [|y l IH]; intro H; cbn [Qsum fold_right length].
  - reflexivity.
  - unfold Qsum in IH. rewrite IH by (intros z Hz; apply H; right; exact Hz).
    rewrite (H y (or_introl eq_refl)).
    rewrite Nat2Z.inj_succ, <- Z.add_1_l, inject_Z_plus. ring.
Qed.

Lemma resize_dims (img : image) :
  ih (resize resample_bilinear img 256 256) = 256 /\ iw (resize resample_bilinear img 256 256) = 256.
Proof.
  unfold resize. destruct (Nat.eqb (ih img) 256) eqn:E1, (Nat.eqb (iw img) 256) eqn:E2;
    cbn; try (split; reflexivity).
  apply Nat.eqb_eq in E1, E2. split; assumption.
Qed.

(** The torchvision centre crop of a 256x256 image is the plain crop at 16. *)
Lemma center_crop_256 (img : image) :
  ih img = 256 -> iw img = 256 ->
  center_crop img 224 224 = crop img CROP_OFFSET CROP_OFFSET 224 224.
Proof.
  intros H1 H2. unfold center_crop. rewrite H1, H2. cbn -[crop]. rewrite H1, H2. reflexivity.
Qed.

Lemma length_flat_map_const {A B} (f : A -> list B) (l : list A) k :
  (forall x, In x l -> length (f x) = k) -> length (flat_map f l) = length l * k.
Proof.
  induction l as [|x l IH]; intro H; [reflexivity|].
  cbn [flat_map length]. rewrite length_app, H by (left; reflexivity).
  rewrite IH by (intros y Hy; apply H; right; exact Hy). lia.
Qed.

Lemma length_flatten (t : chw) : length (flatten t) = tc t * (th t * tw t).
Proof.
  unfold flatten.
  rewrite (length_flat_map_const _ _ (th t * tw t)), length_seq; [reflexivity|].
  intros c _. rewrite (length_flat_map_const _ _ (tw t)), length_seq; [reflexivity|].
  intros i _. now rewrite length_map, length_seq.
Qed.

Lemma flat_map_ext_in {A B} (f g : A -> list B) (l : list A) :
  (forall x, In x l -> f x = g x) -> flat_map f l = flat_map g l.
Proof.
  induction l as [|x l IH]; intro H; [reflexivity|].
  cbn. rewrite H by (left; reflexivity).
  rewrite IH by (intros y Hy; apply H; right; exact Hy). reflexivity.
Qed.

(** The tensor [preprocess] builds from a decoded image. *)
Lemma preprocess_decoded (fs : string -> option (list Byte.byte)) path img :
  imread decode fs path = Some img ->
  let r := resize resample_bilinear (cvtColor_BGR2RGB img) 256 256 in
  preprocess decode resample_bilinear fs path =
    Ok (mk_value [1; 3; 224; 224] float32
          (flat_map (fun c =>
             flat_map (fun i =>
               map (fun j =>
                 ((inject_Z (Z.of_nat (ipx r (CROP_OFFSET + i) (CROP_OFFSET + j) c)) / 255
                   - nth c MEAN 0) / nth c STD 1)%Q)
                 (seq 0 224))
               (seq 0 224))
             (seq 0 3))).
Proof.
  intros H r.
  destruct (resize_dims (cvtColor_BGR2RGB img)) as [Hh Hw]. fold r in Hh, Hw.
  unfold preprocess. rewrite H. apply f_equal.
  unfold add_batch_axis, transform. fold r. clearbody r.
  rewrite (center_crop_256 r Hh Hw). cbn [normalize to_tensor crop tc th tw tv].
  unfold flatten. cbn [tc th tw tv]. apply f_equal.
  apply flat_map_ext_in. intros c _.
  apply flat_map_ext_in. intros i Hi. apply in_seq in Hi.
  apply map_ext_in. intros j Hj. apply in_seq in Hj.
  cbn [normalize to_tensor crop tc th tw tv ih iw ipx]. rewrite Hh, Hw.
  assert (E : Nat.ltb (CROP_OFFSET + i) 256 && Nat.ltb (CROP_OFFSET + j) 256 = true).
  { apply andb_true_iff. split; apply Nat.ltb_lt; replace CROP_OFFSET with 16 by reflexivity; lia. }
  rewrite E. reflexivity.
Qed.

(** Claim C7. [preprocess] raises the image-read error (FileNotFoundError)
    exactly when the image cannot be read and decoded; otherwise it returns
    a (1,3,224,224) float32 array with 3*224*224 elements, equal to the
    contract: RGB order, resize to 256x256, central 224x224 crop, scaling
    by 1/255 and per-channel normalisation with MEAN and STD. *)
Theorem preprocess_pipeline (fs : string -> option (list Byte.byte)) (img_path : string) :
  (preprocess decode resample_bilinear fs img_path = Err FileNotFoundError
     <-> imread decode fs img_path = None) /\
  preprocess decode resample_bilinear fs img_path = preprocess_contract decode resample_bilinear fs img_path /\
  (forall v, preprocess decode resample_bilinear fs img_path = Ok v ->
     v_shape v = INPUT_SHAPE /\ v_dtype v = float32 /\
     length (v_data v) = volume INPUT_SHAPE).
Proof.
  destruct (imread decode fs img_path) as [img|] eqn:Hi.
  - rewrite (preprocess_decoded fs img_path img Hi).
    split; [split; [discriminate | discriminate]|].
    split.
    + unfold preprocess_contract. rewrite Hi. reflexivity.
    + intros v Hv. apply Ok_inj in Hv. subst v. cbn [v_shape v_dtype v_data].
      split; [reflexivity|]. split; [reflexivity|].
      rewrite (length_flat_map_const _ _ (224 * 224)), length_seq.
      * unfold volume, INPUT_SHAPE. cbn [fold_right].
        rewrite Nat.mul_1_l, Nat.mul_1_r. reflexivity.
      * intros c _. rewrite (length_flat_map_const _ _ 224), length_seq; [reflexivity|].
        intros i _. now rewrite length_map, length_seq.
  - unfold preprocess, preprocess_contract. rewrite Hi.
    split; [split; reflexivity|]. split; [reflexivity|]. discriminate.
Qed.

(** Claim C8. For a file that decodes to a solid 256x256 picture whose
    every channel holds [colorValue], [preprocess] succeeds and the mean of
    channel c of its result is exactly (colorValue/255 - MEAN[c]) / STD[c]
    (in the exact-arithmetic model, so within any tolerance). *)
Theorem preprocess_solid_channel_mean (fs : string -> option (list Byte.byte))
    (img_path : string) (bytes : list Byte.byte) (colorValue : nat) :
  fs img_path = Some bytes ->
  decode bytes = Some (solid 256 256 colorValue) ->
  exists v, preprocess decode resample_bilinear fs img_path = Ok v /\
    forall c, c < 3 ->
      (channel_mean v c ==
         (inject_Z (Z.of_nat colorValue) / 255 - nth c MEAN 0) / nth c STD 1)%Q.
Proof.
  intros Hf Hd.
  assert (Hi : imread decode fs img_path = Some (solid 256 256 colorValue))
    by (unfold imread; rewrite Hf; exact Hd).
  rewrite (preprocess_decoded fs img_path _ Hi).
  assert (Er : resize resample_bilinear (cvtColor_BGR2RGB (solid 256 256 colorValue)) 256 256
               = cvtColor_BGR2RGB (solid 256 256 colorValue))
    by (unfold resize; reflexivity).
  rewrite Er. cbn [ipx cvtColor_BGR2RGB solid].
  eexists. split; [reflexivity|]. intros c Hc.
  unfold channel_mean. cbn [v_shape v_data nth].
  set (P := 224 * 224).
  rewrite (firstn_skipn_block
             (fun c0 => flat_map (fun _ : nat => map (fun _ : nat =>
                ((inject_Z (Z.of_nat colorValue) / 255 - nth c0 MEAN 0) / nth c0 STD 1)%Q)
                (seq 0 224)) (seq 0 224))
             P 3 0 c).
  - cbn [Nat.add]. rewrite (Qsum_const _ ((inject_Z (Z.of_nat colorValue) / 255 - nth c MEAN 0) / nth c STD 1)%Q).
    + rewrite (length_flat_map_const _ _ 224), length_seq.
      * fold P. field. split.
        -- destruct c as [|[|[|c]]]; [discriminate..|lia].
        -- change 0%Q with (inject_Z 0). rewrite inject_Z_injective. unfold P. lia.
      * intros i _. now rewrite length_map, length_seq.
    + intros y Hy. apply in_flat_map in Hy as [i [_ Hy]].
      apply in_map_iff in Hy as [j [<- _]]. reflexivity.
  - intro c0. rewrite (length_flat_map_const _ _ 224), length_seq; [reflexivity|].
    intros i _. now rewrite length_map, length_seq.
  - exact Hc.
Qed.

(** Claim C9. [preprocess] is a function of the bytes it reads: two calls
    that read identical bytes (or both find no file) return identical
    results. *)
Theorem preprocess_deterministic (fs1 fs2 : string -> option (list Byte.byte))
    (p1 p2 : string) :
  fs1 p1 = fs2 p2 ->
  preprocess decode resample_bilinear fs1 p1 = preprocess decode resample_bilinear fs2 p2.
Proof.
  intro H. unfold preprocess, imread. rewrite H. reflexivity.
Qed.

(** Claim C6 (code bug). On every path that both backends can decode the
    engine's [preprocess] and the ONNX backend's [preprocess_image] return
    the same (1,3,224,224) float32 array; on a path [cv2.imread] cannot
    read they diverge: [preprocess] raises FileNotFoundError from its
    explicit check, while [preprocess_image] passes None on to
    [cv2.cvtColor], which raises cv2.error. *)
Theorem preprocess_backends_agree_except_unreadable
    (fs : string -> option (list Byte.byte)) (path : string) :
  (forall img, imread decode fs path = Some img ->
     preprocess decode resample_bilinear fs path
       = Onnx.preprocess_image decode resample_bilinear fs path) /\
  (imread decode fs path = None ->
     preprocess decode resample_bilinear fs path = Err FileNotFoundError /\
     Onnx.preprocess_image decode resample_bilinear fs path = Err Cv2Error).
Proof.
  unfold preprocess, Onnx.preprocess_image.
  split.
  - intros img Hi. rewrite Hi. reflexivity.
  - intro Hi. rewrite Hi. split; reflexivity.
Qed.

End PreprocessProofs.

Lemma pagelocked_empty_ok {Engine} (m : @machine Engine) n :
  n <= host_cap m ->
  pagelocked_empty n m =
    (mk_machine (upd (hmem m) (hnext m) (Some (repeat 0%Q n))) (dmem m) (S (hnext m)) (dnext m)
                (host_cap m - n) (dev_cap m) (files m) (obj m) (trace m), Ok (hnext m)).
Proof. intro H. unfold pagelocked_empty. apply Nat.leb_le in H. now rewrite H. Qed.


Lemma mem_alloc_ok {Engine} (m : @machine Engine) n :
  n <= dev_cap m ->
  mem_alloc n m =
    (mk_machine (hmem m) (upd (dmem m) (dnext m) (Some (repeat 0%Q n))) (hnext m) (S (dnext m))
                (host_cap m) (dev_cap m - n) (files m) (obj m) (trace m), Ok (dnext m)).
Proof. intro H. unfold mem_alloc. apply Nat.leb_le in H. now rewrite H. Qed.


Section InitProofs.
Context {Engine : Type}.
Variable deserialize_cuda_engine : list Byte.byte -> option Engine.

Lemma load_engine_ok (m : @machine Engine) b e :
  files m ENGINE_PATH = Some b -> deserialize_cuda_engine b = Some e ->
  load_engine deserialize_cuda_engine m = (m, Ok e).
Proof. intros Hf Hd. unfold load_engine, bind, gets. cbn. now rewrite Hf, Hd. Qed.

Lemma init_until_alloc (m : @machine Engine) b e :
  files m ENGINE_PATH = Some b -> deserialize_cuda_engine b = Some e ->
  init deserialize_cuda_engine m =
    bind (allocate_fixed_memory) (fun _ =>
      ex <- gets obj;;
      di <- attr_get (d_input ex);;
      dout <- attr_get (d_output ex);;
      set_attr (with_bindings (Val [di; dout]));;;
      log EvPrintInfo) (loaded m e).
Proof.
  intros Hf Hd. unfold init.
  erewrite bind_step by reflexivity. cbv beta.
  erewrite bind_step by (apply load_engine_ok with (b := b); [exact Hf | exact Hd]). cbv beta.
  erewrite bind_step by reflexivity. cbv beta.
  erewrite bind_step by reflexivity. cbv beta.
  erewrite bind_step by reflexivity. cbv beta.
  erewrite bind_step by reflexivity. cbv beta.
  reflexivity.
Qed.

Lemma init_ok (m : @machine Engine) b e :
  files m ENGINE_PATH = Some b -> deserialize_cuda_engine b = Some e ->
  volume INPUT_SHAPE + volume OUTPUT_SHAPE <= host_cap m ->
  volume INPUT_SHAPE + volume OUTPUT_SHAPE <= dev_cap m ->
  exists m',
    init deserialize_cuda_engine m = (m', Ok tt) /\
    obj m' = mk_executor (Val e) (Val {| ctx_engine := e |}) (Val (hnext m)) (Val (S (hnext m)))
                         (Val (dnext m)) (Val (S (dnext m))) (Val [dnext m; S (dnext m)]) /\
    liveb m' = true /\
    trace m' = trace m ++ [EvPrintInfo] /\
    hnext m' = S (S (hnext m)) /\ dnext m' = S (S (dnext m)) /\
    host_cap m' = host_cap m - volume INPUT_SHAPE - volume OUTPUT_SHAPE /\
    dev_cap m' = dev_cap m - volume INPUT_SHAPE - volume OUTPUT_SHAPE /\
    files m' = files m /\
    (forall l, l <> hnext m -> l <> S (hnext m) -> hmem m' l = hmem m l) /\
    (forall d, d <> dnext m -> d <> S (dnext m) -> dmem m' d = dmem m d) /\
    hmem m' (hnext m) = Some (repeat 0%Q (volume INPUT_SHAPE)) /\
    hmem m' (S (hnext m)) = Some (repeat 0%Q (volume OUTPUT_SHAPE)) /\
    dmem m' (dnext m) = Some (repeat 0%Q (volume INPUT_SHAPE)) /\
    dmem m' (S (dnext m)) = Some (repeat 0%Q (volume OUTPUT_SHAPE)).
Proof.
  intros Hf Hd Hh Hdv.
  rewrite (init_until_alloc m b e Hf Hd).
  unfold allocate_fixed_memory.
  erewrite bind_step. 2:{
    erewrite bind_step by (apply pagelocked_empty_ok; cbn; lia). cbv beta.
    erewrite bind_step by reflexivity. cbv beta.
    erewrite bind_step by (apply pagelocked_empty_ok; cbn; lia). cbv beta.
    erewrite bind_step by reflexivity. cbv beta.
    erewrite bind_step by (unfold hget; cbn; rewrite upd_other, upd_same by lia; reflexivity). cbv beta.
    erewrite bind_step by (apply mem_alloc_ok; cbn; rewrite repeat_length; lia). cbv beta.
    erewrite bind_step by reflexivity. cbv beta.
    erewrite bind_step by (unfold hget; cbn; rewrite upd_same; reflexivity). cbv beta.
    erewrite bind_step by (apply mem_alloc_ok; cbn; rewrite !repeat_length; lia). cbv beta.
    reflexivity. }
  cbv beta.
  erewrite bind_step by reflexivity. cbv beta.
  erewrite bind_step by reflexivity. cbv beta.
  erewrite bind_step by reflexivity. cbv beta.
  erewrite bind_step by reflexivity. cbv beta.
  eexists. split; [reflexivity|].
  cbn. rewrite !repeat_length.
  split; [reflexivity|].
  split.
  { unfold liveb. cbn.
    rewrite (upd_other _ (S (hnext m)) (hnext m)), !upd_same by lia.
    rewrite (upd_other _ (S (dnext m)) (dnext m)), !upd_same by lia.
    rewrite !repeat_length, !Nat.eqb_refl.
    destruct (Nat.eqb_spec (hnext m) (S (hnext m))); [lia|].
    destruct (Nat.eqb_spec (dnext m) (S (dnext m))); [lia|].
    reflexivity. }
  split; [reflexivity|].
  split; [reflexivity|].
  split; [reflexivity|].
  split; [lia|].
  split; [lia|].
  split; [reflexivity|].
  split; [intros; rewrite !upd_other by lia; reflexivity|].
  split; [intros; rewrite !upd_other by lia; reflexivity|].
  rewrite (upd_other _ (S (hnext m)) (hnext m)), (upd_other _ (S (dnext m)) (dnext m)),
    !upd_same by lia.
  repeat split.
Qed.

Lemma init_load_fail (m : @machine Engine) :
  (files m ENGINE_PATH = None \/
   exists b, files m ENGINE_PATH = Some b /\ deserialize_cuda_engine b = None) ->
  init deserialize_cuda_engine m = (set_obj fresh_executor m, Err RuntimeError).
Proof.
  intro H. unfold init.
  erewrite bind_step by reflexivity. cbv beta.
  apply bind_stop. unfold load_engine, bind, gets. cbn [files set_obj].
  destruct H as [H | (b & H & Hd)]; rewrite H; [reflexivity|]. now rewrite Hd.
Qed.



(** Extra. When the plan file deserialises and host and device memory can
    hold the input (150528 values) and output (1000 values) buffers,
    construction succeeds: two fresh pinned host buffers and two device
    buffers of the same sizes are allocated, the bindings are
    [d_input; d_output], the executor is live, one info line is printed,
    and each capacity shrinks by exactly the two buffer sizes. *)
Theorem init_constructs_live_executor (m : @machine Engine) b e :
  files m ENGINE_PATH = Some b -> deserialize_cuda_engine b = Some e ->
  volume INPUT_SHAPE + volume OUTPUT_SHAPE <= host_cap m ->
  volume INPUT_SHAPE + volume OUTPUT_SHAPE <= dev_cap m ->
  exists m',
    init deserialize_cuda_engine m = (m', Ok tt) /\
    obj m' = mk_executor (Val e) (Val {| ctx_engine := e |}) (Val (hnext m)) (Val (S (hnext m)))
                         (Val (dnext m)) (Val (S (dnext m))) (Val [dnext m; S (dnext m)]) /\
    liveb m' = true /\
    trace m' = trace m ++ [EvPrintInfo] /\
    host_cap m' = host_cap m - volume INPUT_SHAPE - volume OUTPUT_SHAPE /\
    dev_cap m' = dev_cap m - volume INPUT_SHAPE - volume OUTPUT_SHAPE.
Proof.
  intros Hf Hd Hh Hdv.
  destruct (init_ok m b e Hf Hd Hh Hdv) as (m' & Hi & Ho & Hl & Ht & _ & _ & Hhc & Hdc & _).
  exists m'. repeat split; assumption.
Qed.

End InitProofs.

Section RunProofs.
Context {Engine : Type}.
Variable deserialize_cuda_engine : list Byte.byte -> option Engine.
Variable plan_forward : Engine -> list Q -> list Q.
Variable decode : list Byte.byte -> option image.
Variable resample_bilinear : image -> nat -> nat -> (nat -> nat -> nat -> nat).

Lemma infer_run (m : @machine Engine) (a : ndarray) e c hi ho di dout bs x :
  liveb m = true ->
  obj m = mk_executor (Val e) (Val c) (Val hi) (Val ho) (Val di) (Val dout) (Val bs) ->
  hmem m (arr_loc a) = Some x -> length x = volume (arr_shape a) ->
  arr_shape a = INPUT_SHAPE -> arr_dtype a = float32 ->
  exists m' y,
    infer plan_forward a m = (m', Ok (mk_ndarray ho OUTPUT_SHAPE float32)) /\
    bs = [di; dout] /\
    trace m' = trace m ++ [EvCopyHost hi; EvHtoD di hi; EvExec [di; dout]; EvDtoH ho dout] /\
    hmem m' hi = Some x /\ dmem m' di = Some x /\ dmem m dout = Some y /\
    hmem m' ho = Some (overwrite y (plan_forward (ctx_engine c) x)) /\
    dmem m' dout = Some (overwrite y (plan_forward (ctx_engine c) x)) /\
    (forall l, l <> hi -> l <> ho -> hmem m' l = hmem m l) /\
    liveb m' = true.
Proof.
  intros Hl Ho Hx Hlen Hs Hd.
  destruct (liveb_inv m e c hi ho di dout bs Hl Ho)
    as (-> & Hhio & Hdio & hv & hov & dv & dov & Hhv & Hhov & Hdv & Hdov & L1 & L2 & L3 & L4).
  rewrite Hs in Hlen.
  eexists _, dov. split.
  { unfold infer. rewrite Hs, Hd. cbn [shape_eqb INPUT_SHAPE Nat.eqb dtype_eqb negb orb andb].
    erewrite bind_step by reflexivity. cbv beta. rewrite Ho. cbn [h_input d_input context bindings h_output d_output].
    erewrite bind_step by reflexivity. cbv beta.
    erewrite bind_step by (unfold ravel, hget; rewrite Hx; reflexivity). cbv beta.
    erewrite bind_step by (apply copyto_ok with (old := hv); [exact Hhv | lia]). cbv beta.
    erewrite bind_step by reflexivity. cbv beta.
    erewrite bind_step by reflexivity. cbv beta.
    erewrite bind_step by (apply memcpy_htod_ok with (dv := dv) (hv := x);
      [exact Hdv | cbn; apply upd_same | lia]). cbv beta.
    erewrite bind_step by reflexivity. cbv beta.
    erewrite bind_step by reflexivity. cbv beta.
    erewrite bind_step by (apply execute_v2_ok with (x := overwrite dv x) (y := dov);
      [cbn; apply upd_same | cbn; rewrite upd_other by congruence; exact Hdov]). cbv beta.
    erewrite bind_step by reflexivity. cbv beta.
    erewrite bind_step by reflexivity. cbv beta.
    erewrite bind_step by (apply memcpy_dtoh_ok with (hv := hov) (dv := overwrite dov (plan_forward (ctx_engine c) (overwrite dv x)));
      [cbn; rewrite !upd_other by congruence; exact Hhov | cbn; apply upd_same | rewrite overwrite_length; lia]). cbv beta.
    unfold reshape. erewrite bind_step by (unfold hget; cbn; rewrite upd_same; reflexivity).
    rewrite length_firstn, overwrite_length, L2, L4, Nat.min_id, Nat.eqb_refl.
    reflexivity. }
  assert (Ex : overwrite dv x = x) by (apply overwrite_full; lia).
  rewrite Ex, firstn_all2 by (rewrite overwrite_length; lia).
  cbn [trace hmem dmem emit set_hmem set_dmem obj].
  split; [reflexivity|].
  split; [rewrite <- !app_assoc; reflexivity|].
  split; [rewrite upd_other, upd_same by congruence; reflexivity|].
  split; [rewrite upd_other, upd_same by congruence; reflexivity|].
  split; [exact Hdov|].
  split; [rewrite upd_same; reflexivity|].
  split; [rewrite upd_same; reflexivity|].
  split; [intros l Hl1 Hl2; rewrite !upd_other by congruence; reflexivity|].
  unfold liveb. cbn [obj hmem dmem emit set_hmem set_dmem]. rewrite Ho.
  rewrite (upd_other _ ho hi), upd_same, upd_same by congruence.
  rewrite (upd_other _ dout di), upd_same, upd_same by congruence.
  rewrite overwrite_length, Hlen, L4, !Nat.eqb_refl.
  apply Nat.eqb_neq in Hhio, Hdio. rewrite Hhio, Hdio.
  cbn [shape_eqb negb andb]. now rewrite !Nat.eqb_refl.
Qed.

Lemma liveb_emit (m : @machine Engine) ev : liveb (emit ev m) = liveb m.
Proof. reflexivity. Qed.

Lemma liveb_new_buffer (m : @machine Engine) l v n e c hi ho di dout bs :
  obj m = mk_executor (Val e) (Val c) (Val hi) (Val ho) (Val di) (Val dout) (Val bs) ->
  l <> hi -> l <> ho ->
  liveb (mk_machine (upd (hmem m) l v) (dmem m) n (dnext m) (host_cap m) (dev_cap m)
                    (files m) (obj m) (trace m)) = liveb m.
Proof.
  intros Ho H1 H2. unfold liveb. cbn [obj hmem dmem]. rewrite Ho.
  rewrite !upd_other by congruence. reflexivity.
Qed.

Lemma argmax_from_lt (xs : list Q) i best bv :
  best < i -> argmax_from xs i best bv < i + length xs.
Proof.
  revert i best bv. induction xs as [|x xs IH]; intros i best bv H; cbn [argmax_from length].
  - lia.
  - destruct (Qlt_le_dec bv x); (eapply Nat.lt_le_trans; [apply IH; lia | lia]).
Qed.

Lemma argmax_lt (xs : list Q) : xs <> [] -> argmax xs < length xs.
Proof.
  destruct xs as [|x xs]; [congruence|]. intros _. cbn [argmax length].
  apply (argmax_from_lt xs 1 0 x). lia.
Qed.

Lemma volume_OUTPUT_SHAPE : volume OUTPUT_SHAPE = 1000.
Proof. reflexivity. Qed.

Lemma preprocess_ok_value (fs : string -> option (list Byte.byte)) path img :
  imread decode fs path = Some img ->
  exists v, preprocess decode resample_bilinear fs path = Ok v /\
    v_shape v = INPUT_SHAPE /\ v_dtype v = float32 /\ length (v_data v) = volume INPUT_SHAPE.
Proof.
  intro Hi. rewrite (preprocess_decoded decode resample_bilinear fs path img Hi).
  eexists. split; [reflexivity|]. cbn [v_shape v_dtype v_data].
  split; [reflexivity|]. split; [reflexivity|].
  rewrite (length_flat_map_const _ _ (224 * 224)), length_seq.
  - unfold volume, INPUT_SHAPE. cbn [fold_right].
    rewrite Nat.mul_1_l, Nat.mul_1_r. reflexivity.
  - intros c _. rewrite (length_flat_map_const _ _ 224), length_seq; [reflexivity|].
    intros i _. now rewrite length_map, length_seq.
Qed.

(** [main] after a successful construction, up to the [finally] clause. *)
Lemma main_after_init (m m1 : @machine Engine) :
  init deserialize_cuda_engine m = (m1, Ok tt) ->
  main deserialize_cuda_engine plan_forward decode resample_bilinear m =
    release (match main_body plan_forward decode resample_bilinear m1 with
             | (m', Ok _) => m'
             | (m', Err e) => emit (EvPrintFail e) m'
             end).
Proof. intro H. unfold main. now rewrite H. Qed.

Lemma main_init_error (m m1 : @machine Engine) e :
  init deserialize_cuda_engine m = (m1, Err e) ->
  main deserialize_cuda_engine plan_forward decode resample_bilinear m
    = (emit (EvPrintFail e) m1, Ok tt).
Proof. intro H. unfold main. now rewrite H. Qed.

(** Extra. A full run of the entry point when the plan file loads, both
    host and device memory suffice and the test image decodes: construction,
    preprocessing, one inference and the release happen in this order, with
    exactly these observable actions, and the printed label is the argmax of
    the 1000 output values, so it is below 1000. *)
Theorem main_success_run (m : @machine Engine) b e ib img :
  files m ENGINE_PATH = Some b -> deserialize_cuda_engine b = Some e ->
  volume INPUT_SHAPE + volume OUTPUT_SHAPE <= host_cap m ->
  volume INPUT_SHAPE + volume OUTPUT_SHAPE <= dev_cap m ->
  files m TEST_IMAGE = Some ib -> decode ib = Some img ->
  exists v m',
    preprocess decode resample_bilinear (files m) TEST_IMAGE = Ok v /\
    main deserialize_cuda_engine plan_forward decode resample_bilinear m = (m', Ok tt) /\
    trace m' = trace m ++
      [EvPrintInfo; EvPrintInfo; EvPrintInfo;
       EvCopyHost (hnext m); EvHtoD (dnext m) (hnext m); EvExec [dnext m; S (dnext m)];
       EvDtoH (S (hnext m)) (S (dnext m));
       EvPrintResult (argmax (overwrite (repeat 0%Q (volume OUTPUT_SHAPE)) (plan_forward e (v_data v))));
       EvFree (dnext m); EvFree (S (dnext m)); EvClearEngine; EvClearContext; EvPrintInfo] /\
    argmax (overwrite (repeat 0%Q (volume OUTPUT_SHAPE)) (plan_forward e (v_data v)))
      < volume OUTPUT_SHAPE.
Proof.
  intros Hf Hd Hh Hdv Hti Hdec.
  destruct (init_ok deserialize_cuda_engine m b e Hf Hd Hh Hdv)
    as (m1 & Hi & Ho1 & Hl1 & Ht1 & Hn1 & _ & _ & _ & Hfs1 & _ & _ & _ & _ & _ & Hdo1).
  assert (Him : imread decode (files m) TEST_IMAGE = Some img)
    by (unfold imread; rewrite Hti; exact Hdec).
  destruct (preprocess_ok_value (files m) TEST_IMAGE img Him) as (v & Hp & Hvs & Hvd & Hvl).
  set (y := overwrite (repeat 0%Q (volume OUTPUT_SHAPE)) (plan_forward e (v_data v))).
  set (m2 := mk_machine (upd (hmem m1) (hnext m1) (Some (v_data v))) (dmem m1) (S (hnext m1))
                        (dnext m1) (host_cap m1) (dev_cap m1) (files m1) (obj m1) (trace m1)).
  set (m3 := emit EvPrintInfo (emit EvPrintInfo m2)).
  set (a := mk_ndarray (hnext m1) (v_shape v) (v_dtype v)).
  assert (Hl3 : liveb m3 = true).
  { unfold m3. rewrite !liveb_emit. unfold m2.
    rewrite (liveb_new_buffer m1 _ _ _ e _ (hnext m) (S (hnext m)) (dnext m) (S (dnext m)) _ Ho1)
      by lia.
    exact Hl1. }
  assert (Ho3 : obj m3 = obj m1) by reflexivity.
  rewrite Ho1 in Ho3.
  assert (Hx3 : hmem m3 (arr_loc a) = Some (v_data v)) by (cbn; apply upd_same).
  assert (Hlen : length (v_data v) = volume (arr_shape a)) by (cbn; rewrite Hvs; exact Hvl).
  destruct (infer_run m3 a e _ _ _ _ _ _ (v_data v) Hl3 Ho3 Hx3 Hlen Hvs Hvd)
    as (m4 & y0 & Hinf & _ & Ht4 & _ & _ & Hy0 & Hho4 & _ & _ & Hl4).
  assert (Ey0 : y0 = repeat 0%Q (volume OUTPUT_SHAPE)).
  { cbn in Hy0. rewrite Hdo1 in Hy0. congruence. }
  subst y0. cbn [ctx_engine] in Hho4. fold y in Hho4.
  assert (Ho4 : obj m4 = obj m1).
  { pose proof (keeps_infer plan_forward a m3) as K. rewrite Hinf in K. exact K. }
  set (m5 := emit (EvPrintResult (argmax y)) m4).
  assert (Hbody : main_body plan_forward decode resample_bilinear m1 = (m5, Ok tt)).
  { unfold main_body.
    erewrite bind_step by reflexivity. cbv beta.
    erewrite bind_step. 2:{
      erewrite bind_step by (unfold lift; rewrite Hfs1, Hp; reflexivity). cbv beta.
      reflexivity. }
    cbv beta.
    erewrite bind_step by reflexivity. cbv beta.
    erewrite bind_step by reflexivity. cbv beta.
    erewrite bind_step by exact Hinf. cbv beta.
    erewrite bind_step by (unfold ravel, hget; cbn [arr_loc]; rewrite Hho4; reflexivity). cbv beta.
    reflexivity. }
  assert (Hl5 : liveb m5 = true) by (unfold m5; rewrite liveb_emit; exact Hl4).
  assert (Ho5 : obj m5 = obj m1) by exact Ho4.
  rewrite Ho1 in Ho5.
  destruct (release_live m5 _ _ _ _ _ _ _ Hl5 Ho5) as (m6 & Hr & Ht6 & _).
  exists v, m6. split; [exact Hp|]. split.
  { rewrite (main_after_init m m1 Hi), Hbody. exact Hr. }
  split.
  { rewrite Ht6. unfold m5. cbn [trace emit]. rewrite Ht4. unfold m3, m2. cbn [trace emit].
    rewrite Ht1. rewrite <- !app_assoc. reflexivity. }
  apply (Nat.lt_le_trans _ (length y)).
  - apply argmax_lt. unfold y. intro E. apply (f_equal (@length Q)) in E.
    rewrite overwrite_length, repeat_length, volume_OUTPUT_SHAPE in E. discriminate.
  - unfold y. rewrite overwrite_length, repeat_length. lia.
Qed.



(** Extra. When construction succeeds but the test image cannot be read,
    the entry point prints the FileNotFoundError and then releases the
    executor: both device buffers are freed and the plan and context
    cleared. *)
Theorem main_unreadable_image (m : @machine Engine) b e :
  files m ENGINE_PATH = Some b -> deserialize_cuda_engine b = Some e ->
  volume INPUT_SHAPE + volume OUTPUT_SHAPE <= host_cap m ->
  volume INPUT_SHAPE + volume OUTPUT_SHAPE <= dev_cap m ->
  imread decode (files m) TEST_IMAGE = None ->
  exists m',
    main deserialize_cuda_engine plan_forward decode resample_bilinear m = (m', Ok tt) /\
    trace m' = trace m ++
      [EvPrintInfo; EvPrintFail FileNotFoundError;
       EvFree (dnext m); EvFree (S (dnext m)); EvClearEngine; EvClearContext; EvPrintInfo].
Proof.
  intros Hf Hd Hh Hdv Him.
  destruct (init_ok deserialize_cuda_engine m b e Hf Hd Hh Hdv)
    as (m1 & Hi & Ho1 & Hl1 & Ht1 & _ & _ & _ & _ & Hfs1 & _).
  assert (Hbody : main_body plan_forward decode resample_bilinear m1 = (m1, Err FileNotFoundError)).
  { unfold main_body.
    erewrite bind_step by reflexivity. cbv beta.
    apply bind_stop. apply bind_stop.
    unfold lift, preprocess. rewrite Hfs1, Him. reflexivity. }
  assert (Hl2 : liveb (emit (EvPrintFail FileNotFoundError) m1) = true)
    by (rewrite liveb_emit; exact Hl1).
  destruct (release_live _ _ _ _ _ _ _ _ Hl2 Ho1) as (m2 & Hr & Ht2 & _).
  exists m2. split.
  { rewrite (main_after_init m m1 Hi), Hbody. exact Hr. }
  rewrite Ht2. cbn [trace emit]. rewrite Ht1, <- !app_assoc. reflexivity.
Qed.

(** Extra. When the plan file is missing or does not deserialise, the entry
    point prints one failure line (the RuntimeError from [_load_engine]) and
    does nothing else: no host or device memory is allocated and nothing is
    released. *)
Theorem main_missing_plan (m : @machine Engine) :
  (files m ENGINE_PATH = None \/
   exists b, files m ENGINE_PATH = Some b /\ deserialize_cuda_engine b = None) ->
  main deserialize_cuda_engine plan_forward decode resample_bilinear m
    = (emit (EvPrintFail RuntimeError) (set_obj fresh_executor m), Ok tt).
Proof.
  intro H. apply main_init_error. now apply init_load_fail.
Qed.



(** Extra. [infer] returns a view of the executor's output host buffer, not
    a copy: two successive calls return the same array, and after the second
    call the array returned by the first holds the second result. *)
Theorem infer_result_is_shared_view (m : @machine Engine) e c hi ho di dout bs a1 a2 x1 x2 :
  liveb m = true ->
  obj m = mk_executor (Val e) (Val c) (Val hi) (Val ho) (Val di) (Val dout) (Val bs) ->
  hmem m (arr_loc a1) = Some x1 -> length x1 = volume (arr_shape a1) ->
  arr_shape a1 = INPUT_SHAPE -> arr_dtype a1 = float32 ->
  hmem m (arr_loc a2) = Some x2 -> length x2 = volume (arr_shape a2) ->
  arr_shape a2 = INPUT_SHAPE -> arr_dtype a2 = float32 ->
  arr_loc a2 <> hi -> arr_loc a2 <> ho ->
  exists r m1 m2 y,
    infer plan_forward a1 m = (m1, Ok r) /\
    infer plan_forward a2 m1 = (m2, Ok r) /\
    hmem m1 (arr_loc r) = Some (overwrite y (plan_forward (ctx_engine c) x1)) /\
    hmem m2 (arr_loc r) =
      Some (overwrite (overwrite y (plan_forward (ctx_engine c) x1)) (plan_forward (ctx_engine c) x2)).
Proof.
  intros Hl Ho H1 L1 S1 D1 H2 L2 S2 D2 N1 N2.
  destruct (infer_run m a1 e c hi ho di dout bs x1 Hl Ho H1 L1 S1 D1)
    as (m1 & y & Hinf1 & Hbs & _ & _ & _ & _ & Hho1 & Hdo1 & Hfr1 & Hl1).
  assert (Ho1 : obj m1 = obj m).
  { pose proof (keeps_infer plan_forward a1 m) as K. rewrite Hinf1 in K. exact K. }
  rewrite Ho in Ho1.
  assert (H2' : hmem m1 (arr_loc a2) = Some x2) by (rewrite Hfr1 by assumption; exact H2).
  destruct (infer_run m1 a2 e c hi ho di dout bs x2 Hl1 Ho1 H2' L2 S2 D2)
    as (m2 & y' & Hinf2 & _ & _ & _ & _ & Hy' & Hho2 & _ & _ & _).
  rewrite Hdo1 in Hy'. injection Hy' as <-.
  exists (mk_ndarray ho OUTPUT_SHAPE float32), m1, m2, y.
  repeat split; assumption.
Qed.

(** Extra. [release()] frees only the two device buffers: the pinned host
    buffers stay allocated with their contents, other device memory is
    untouched, and the object keeps its buffer and binding attributes (the
    freed device handles included); only [engine] and [context] become
    None. *)
Theorem release_keeps_host_buffers (m : @machine Engine) e c hi ho di dout bs :
  liveb m = true ->
  obj m = mk_executor (Val e) (Val c) (Val hi) (Val ho) (Val di) (Val dout) (Val bs) ->
  exists m1,
    release m = (m1, Ok tt) /\
    hmem m1 = hmem m /\
    (forall k, k <> di -> k <> dout -> dmem m1 k = dmem m k) /\
    obj m1 = mk_executor PyNone PyNone (Val hi) (Val ho) (Val di) (Val dout) (Val bs).
Proof.
  intros Hl Ho.
  destruct (release_live m e c hi ho di dout bs Hl Ho) as (m1 & Hr & _ & _ & _ & Hk & Hh & Hob).
  exists m1. repeat split; assumption.
Qed.

End RunProofs.

(** * Instances of the theorems on the concrete installation, and the
    executions that contradict the claims as first stated *)

Module Examples.

Import Demo.

(** C1 on a constructed executor and a fresh (1,3,224,224) float32 input. *)
Lemma infer_valid_sequence_witness :
  exists m', infer forward (snd with_input) (fst with_input)
               = (m', Ok (mk_ndarray 1 OUTPUT_SHAPE float32)) /\
             trace m' = trace (fst with_input)
                        ++ [EvCopyHost 0; EvHtoD 0 0; EvExec [0; 1]; EvDtoH 1 1].
Proof.
  assert (H1 : liveb (fst with_input) = true) by (vm_compute; reflexivity).
  assert (H2 : obj (fst with_input) =
                 mk_executor (Val tt) (Val {| ctx_engine := tt |}) (Val 0) (Val 1)
                             (Val 0) (Val 1) (Val [0; 1])) by (vm_compute; reflexivity).
  assert (H4 : match hmem (fst with_input) (arr_loc (snd with_input)) with
                | Some x => Nat.eqb (length x) (volume (arr_shape (snd with_input)))
                | None => false
                end = true) by (vm_compute; reflexivity).
  destruct (hmem (fst with_input) (arr_loc (snd with_input))) as [x|] eqn:H3;
    [apply Nat.eqb_eq in H4 | discriminate H4].
  assert (H5 : arr_shape (snd with_input) = INPUT_SHAPE) by (vm_compute; reflexivity).
  assert (H6 : arr_dtype (snd with_input) = float32) by (vm_compute; reflexivity).
  destruct (infer_valid_sequence forward (fst with_input) (snd with_input) tt
              {| ctx_engine := tt |} 0 1 0 1 [0; 1] x H1 H2 H3 H4 H5 H6)
    as (m' & y & E & _ & T & _).
  exists m'. split; [exact E | exact T].
Defined.

(** C4 on an input whose last dimension is 225. *)
Lemma infer_mismatch_no_copy_witness :
  infer forward (mk_ndarray 0 [1; 3; 224; 225] float32) constructed
    = (constructed, Err ValueError).
Proof.
  apply infer_mismatch_no_copy. left. discriminate.
Defined.

(** C10 on an input that is a view of the executor's own [h_input]. *)
Lemma infer_input_unchanged_witness :
  hmem (fst (infer forward (mk_ndarray 0 INPUT_SHAPE float32) constructed)) 0
    = hmem constructed 0.
Proof.
  apply (infer_input_unchanged forward constructed (mk_ndarray 0 INPUT_SHAPE float32));
    vm_compute; reflexivity.
Defined.

(** C2: the second of two consecutive [release()] calls raises. *)
Lemma release_twice_fails :
  snd (release (fst (release constructed))) = Err InvalidHandleError.
Proof. vm_compute. reflexivity. Qed.

Lemma release_twice_second_raises_witness :
  exists m1, release constructed = (m1, Ok tt) /\
             release m1 = (m1, Err InvalidHandleError).
Proof.
  destruct (release_twice_second_raises constructed tt {| ctx_engine := tt |} 0 1 0 1 [0; 1])
    as (m1 & E & _ & R); [vm_compute; reflexivity | vm_compute; reflexivity |].
  exists m1. split; [exact E | exact R].
Defined.

(** C5: [release()] clears the engine (plan) before the context (handle). *)
Lemma release_engine_before_context :
  trace (fst (release constructed))
    = [EvPrintInfo; EvFree 0; EvFree 1; EvClearEngine; EvClearContext; EvPrintInfo].
Proof. vm_compute. reflexivity. Qed.

Lemma release_order_witness :
  exists m1, release constructed = (m1, Ok tt) /\
             engine (obj m1) = PyNone /\ context (obj m1) = PyNone.
Proof.
  destruct (release_order constructed tt {| ctx_engine := tt |} 0 1 0 1 [0; 1])
    as (m1 & E & _ & _ & _ & En & Co); [vm_compute; reflexivity | vm_compute; reflexivity |].
  exists m1. split; [exact E | split; [exact En | exact Co]].
Defined.

(** C3: allocation fails after the plan is loaded; [release()] on that
    executor raises AttributeError, and the entry point never calls it. *)
Lemma release_after_failed_alloc :
  engine (obj (fst (init deserialize failed_alloc))) = Val tt /\
  d_input (obj (fst (init deserialize failed_alloc))) = Missing /\
  snd (release (fst (init deserialize failed_alloc))) = Err AttributeError /\
  trace (fst (main deserialize forward decode_none resample_zero failed_alloc))
    = [EvPrintFail HostMemoryError].
Proof. vm_compute. repeat split. Qed.

Lemma main_release_paths_witness :
  main deserialize forward decode_none resample_zero failed_alloc
    = (emit (EvPrintFail HostMemoryError) (fst (init deserialize failed_alloc)), Ok tt).
Proof.
  apply (proj1 (main_release_paths deserialize forward decode_none resample_zero failed_alloc)).
  vm_compute. reflexivity.
Defined.

(** C6: a path with no file behind it. *)
Lemma preprocess_backends_witness :
  preprocess decode_solid resample_zero fs TEST_IMAGE = Err FileNotFoundError /\
  Onnx.preprocess_image decode_solid resample_zero fs TEST_IMAGE = Err Cv2Error.
Proof.
  apply (proj2 (preprocess_backends_agree_except_unreadable decode_solid resample_zero fs TEST_IMAGE)).
  vm_compute. reflexivity.
Defined.

(** C7 on a readable and on a missing image. *)
Lemma preprocess_pipeline_witness :
  preprocess decode_solid resample_zero fs_img TEST_IMAGE
    = preprocess_contract decode_solid resample_zero fs_img TEST_IMAGE /\
  preprocess decode_solid resample_zero fs TEST_IMAGE = Err FileNotFoundError.
Proof.
  split.
  - apply (proj1 (proj2 (preprocess_pipeline decode_solid resample_zero fs_img TEST_IMAGE))).
  - apply (proj2 (proj1 (preprocess_pipeline decode_solid resample_zero fs TEST_IMAGE))).
    vm_compute. reflexivity.
Defined.

(** C8 on the grey test picture, channel 0. *)
Lemma preprocess_solid_channel_mean_witness :
  exists v, preprocess decode_solid resample_zero fs_img TEST_IMAGE = Ok v /\
    (channel_mean v 0 ==
       (inject_Z (Z.of_nat grey) / 255 - nth 0 MEAN 0) / nth 0 STD 1)%Q.
Proof.
  destruct (preprocess_solid_channel_mean decode_solid resample_zero fs_img TEST_IMAGE
              image_bytes grey) as (v & E & H);
    [vm_compute; reflexivity | vm_compute; reflexivity |].
  exists v. split; [exact E | apply H; lia].
Defined.

(** C9 on the same bytes read under two names. *)
Lemma preprocess_deterministic_witness :
  preprocess decode_solid resample_zero fs_img TEST_IMAGE
    = preprocess decode_solid resample_zero fs_copy COPY_IMAGE.
Proof.
  apply preprocess_deterministic. vm_compute. reflexivity.
Defined.

(** Construction on a machine with just enough memory. *)
Lemma init_constructs_live_executor_witness :
  exists m', init deserialize constructed_from = (m', Ok tt) /\ liveb m' = true.
Proof.
  destruct (init_constructs_live_executor deserialize constructed_from engine_bytes tt)
    as (m' & Hi & _ & Hl & _);
    [vm_compute; reflexivity | vm_compute; reflexivity
    | apply Nat.leb_le; vm_compute; reflexivity | apply Nat.leb_le; vm_compute; reflexivity |].
  exists m'. split; [exact Hi | exact Hl].
Defined.

(** No plan on disk. *)
Lemma main_missing_plan_witness :
  main deserialize forward decode_none resample_zero empty_disk
    = (emit (EvPrintFail RuntimeError) (set_obj fresh_executor empty_disk), Ok tt).
Proof.
  apply main_missing_plan. left. reflexivity.
Defined.



(** Everything in place: the grey test image is classified. *)
Lemma main_success_run_witness :
  exists m', main deserialize forward decode_solid resample_zero ready = (m', Ok tt).
Proof.
  destruct (main_success_run deserialize forward decode_solid resample_zero ready
              engine_bytes tt image_bytes (solid 256 256 grey)) as (v & m' & _ & Hm & _);
    [vm_compute; reflexivity | vm_compute; reflexivity
    | apply Nat.leb_le; vm_compute; reflexivity | apply Nat.leb_le; vm_compute; reflexivity
    | vm_compute; reflexivity | vm_compute; reflexivity |].
  exists m'. exact Hm.
Defined.

(** The plan loads but the test image is missing. *)
Lemma main_unreadable_image_witness :
  exists m', main deserialize forward decode_solid resample_zero constructed_from = (m', Ok tt) /\
             trace m' = [EvPrintInfo; EvPrintFail FileNotFoundError;
                         EvFree 0; EvFree 1; EvClearEngine; EvClearContext; EvPrintInfo].
Proof.
  destruct (main_unreadable_image deserialize forward decode_solid resample_zero
              constructed_from engine_bytes tt) as (m' & Hm & Ht);
    [vm_compute; reflexivity | vm_compute; reflexivity
    | apply Nat.leb_le; vm_compute; reflexivity | apply Nat.leb_le; vm_compute; reflexivity
    | vm_compute; reflexivity |].
  exists m'. split; [exact Hm | exact Ht].
Defined.

(** Two inferences on the same caller array. *)
Lemma infer_result_is_shared_view_witness :
  exists r m1 m2,
    infer forward (snd with_input) (fst with_input) = (m1, Ok r) /\
    infer forward (snd with_input) m1 = (m2, Ok r).
Proof.
  assert (H4 : match hmem (fst with_input) (arr_loc (snd with_input)) with
                | Some x => Nat.eqb (length x) (volume (arr_shape (snd with_input)))
                | None => false
                end = true) by (vm_compute; reflexivity).
  destruct (hmem (fst with_input) (arr_loc (snd with_input))) as [x|] eqn:H3;
    [apply Nat.eqb_eq in H4 | discriminate H4].
  destruct (infer_result_is_shared_view forward (fst with_input) tt {| ctx_engine := tt |}
              0 1 0 1 [0; 1] (snd with_input) (snd with_input) x x)
    as (r & m1 & m2 & y & E1 & E2 & _);
    [vm_compute; reflexivity | vm_compute; reflexivity | exact H3 | exact H4
    | vm_compute; reflexivity | vm_compute; reflexivity | exact H3 | exact H4
    | vm_compute; reflexivity | vm_compute; reflexivity
    | vm_compute; discriminate | vm_compute; discriminate |].
  exists r, m1, m2. split; [exact E1 | exact E2].
Defined.

(** Release of the constructed executor. *)
Lemma release_keeps_host_buffers_witness :
  exists m1, release constructed = (m1, Ok tt) /\ hmem m1 = hmem constructed.
Proof.
  destruct (release_keeps_host_buffers constructed tt {| ctx_engine := tt |} 0 1 0 1 [0; 1])
    as (m1 & Hr & Hh & _); [vm_compute; reflexivity | vm_compute; reflexivity |].
  exists m1. split; [exact Hr | exact Hh].
Defined.


End Examples.
